(** * Comment-chain harvesting in [edward.py] and [bot.py]

    A shallow embedding of the Reddit training routines of the two
    scripts, [edward.reddit_training] and [bot.reddit_training], together
    with the credential loading they depend on ([get_reddit_envars],
    [get_reddit]).

    The Python code is effectful: it sleeps, logs, calls the training sink
    and talks to the content source, and any of the external calls may
    raise.  The embedding is a writer/exception monad: a computation is the
    list of externally visible events it performed, in order, paired with
    either its value or the exception that ended it. *)

From Stdlib Require Import QArith Ascii String.
From stdpp Require Import gmap strings list.

Local Open Scope string_scope.
Local Open Scope list_scope.
Local Open Scope Z_scope.

(** ** Python strings *)

Module PyStr.

(** [c in chars], for a character [c] and a string [chars]. *)
Fixpoint mem (c : ascii) (chars : string) : bool :=
  match chars with
  | EmptyString => false
  | String d chars' => if Ascii.eqb c d then true else mem c chars'
  end.

(** [s.lstrip(chars)]: drop the leading characters that occur in [chars]. *)
Fixpoint lstrip (chars s : string) : string :=
  match s with
  | EmptyString => EmptyString
  | String c s' => if mem c chars then lstrip chars s' else s
  end.

(** [s.rstrip(chars)]: drop the trailing characters that occur in [chars]. *)
Fixpoint rstrip (chars s : string) : string :=
  match s with
  | EmptyString => EmptyString
  | String c s' =>
      match rstrip chars s' with
      | EmptyString => if mem c chars then EmptyString else String c EmptyString
      | r => String c r
      end
  end.

(** [s.strip(chars)]: [chars] is a set of characters, not a prefix. *)
Definition strip (chars s : string) : string := rstrip chars (lstrip chars s).

(** [s.startswith(p)]. *)
Fixpoint startswith (p s : string) : bool :=
  match p, s with
  | EmptyString, _ => true
  | String _ _, EmptyString => false
  | String a p', String b s' => if Ascii.eqb a b then startswith p' s' else false
  end.

(** [p in s], substring test. *)
Fixpoint contains (p s : string) : bool :=
  if startswith p s then true
  else match s with
       | EmptyString => false
       | String _ s' => contains p s'
       end.

(** [len(s)].  Characters are [ascii] here; Python counts code points. *)
Definition len (s : string) : Z := Z.of_nat (String.length s).

(** Whether the first character of [s] occurs in [chars]. *)
Definition startswith_any (chars s : string) : bool :=
  match s with
  | EmptyString => false
  | String c _ => mem c chars
  end.

(** Whether the last character of [s] occurs in [chars]. *)
Fixpoint endswith_any (chars s : string) : bool :=
  match s with
  | EmptyString => false
  | String c EmptyString => mem c chars
  | String _ s' => endswith_any chars s'
  end.

(** Whether every character of [s] occurs in [chars]. *)
Fixpoint all_in (chars s : string) : bool :=
  match s with
  | EmptyString => true
  | String c s' => mem c chars && all_in chars s'
  end.



End PyStr.

(** ** Exceptions, events and the effect monad *)

(** The exception classes the two scripts can meet.  [APIException] and
    [ClientException] are subclasses of [PRAWException] in praw; the
    [except] clauses test them in that order.  The carried message is
    [str(exc)], which is what ['%s' % exc] renders. *)
Inductive Exn : Type :=
| APIException (msg : string)
| ClientException (msg : string)
| PRAWException (msg : string)
| AssertionError (msg : string)
| AttributeError (msg : string)
| UnboundLocalError (msg : string)
| SystemExit (code : Z)
| OtherException (name msg : string).

Inductive Level : Type := DEBUG | INFO | WARNING | ERROR.

(** Arguments handed to a logging call next to its format string. *)
Inductive LogArg : Type :=
| AStr (s : string)
| AInt (z : Z)
| ABool (b : bool)
| ANone
| AList (l : list string)
| AExn (e : Exn).

(** What the outside world observes of a run. *)
Inductive Event : Type :=
| Sleep (seconds : Q)                       (* time.sleep *)
| Log (lvl : Level) (fmt : string) (args : list LogArg)
| NewChatBot (name : string)                (* ChatBot(...) *)
| NewReddit (client_id client_secret username password : string)
| HotListing (sub : string) (lim : Z)       (* reddit.subreddit(sub).hot(limit=lim) *)
| FetchRedditor (name : string)             (* submission.author.link_karma *)
| FetchComments (id : string)               (* submission.comments *)
| Train (statements : list string).         (* bot.train *)

Inductive result (A : Type) : Type :=
| Ok (a : A)
| Raise (e : Exn).
Arguments Ok {A} a.
Arguments Raise {A} e.

Definition M (A : Type) : Type := (list Event * result A)%type.

Definition ret {A} (a : A) : M A := ([], Ok a).
Definition raise {A} (e : Exn) : M A := ([], Raise e).
Definition emit (ev : Event) : M unit := ([ev], Ok tt).

Definition bind {A B} (m : M A) (k : A -> M B) : M B :=
  match m with
  | (tr, Ok a) => let (tr', r) := k a in (tr ++ tr', r)
  | (tr, Raise e) => (tr, Raise e)
  end.

(** stdpp's monad notations: [x ← m; k] and [m;; k]. *)
#[global] Instance M_ret : MRet M := @ret.
#[global] Instance M_bind : MBind M := fun A B k m => bind m k.

(** An external call whose answer or failure is fixed by the environment. *)
Definition lift {A} (r : result A) : M A := ([], r).

(** [try: m  except ...: h]: [h e = None] when no clause matches [e]. *)
Definition try_except {A} (m : M A) (h : Exn -> option (M A)) : M A :=
  match m with
  | (tr, Ok a) => (tr, Ok a)
  | (tr, Raise e) =>
      match h e with
      | Some (tr', r) => (tr ++ tr', r)
      | None => (tr, Raise e)
      end
  end.

(** [for x in l: f x] *)
Fixpoint for_each {A} (l : list A) (f : A -> M unit) : M unit :=
  match l with
  | [] => ret tt
  | x :: l' => f x;; for_each l' f
  end.

Definition trace {A} (m : M A) : list Event := fst m.
Definition outcome {A} (m : M A) : result A := snd m.

Definition sleep (seconds : Q) : M unit := emit (Sleep seconds).
Definition LOG (lvl : Level) (fmt : string) (args : list LogArg) : M unit :=
  emit (Log lvl fmt args).


(** ** The collaborators: content source, training sink, environment *)

(** What praw hands to the scripts.  A fetch that needs the network carries
    its answer or the exception it raises. *)
Module Praw.

(** [praw.models.Redditor]; [link_karma] is fetched on first access. *)
Record Redditor : Type := mkRedditor {
  name : string;
  link_karma : result Z
}.

(** [praw.models.Comment]: its text and its direct replies, in the order
    the source supplies them. *)
#[warnings="-register-all"]
Inductive Comment : Type := mkComment {
  body : string;
  replies : list Comment
}.

(** [praw.models.Submission].  [author] is [None] for a deleted
    submission.  [comments] is what
    [submission.comments.replace_more(limit=0)] followed by
    [submission.comments.list()] gives: the flattened comment list. *)
Record Submission : Type := mkSubmission {
  title : string;
  score : Z;
  id : string;
  url : string;
  author : option Redditor;
  comments : result (list Comment)
}.

(** [praw.Reddit] *)
Record Reddit : Type := mkReddit {
  read_only : bool
}.

End Praw.

(** Everything outside the scripts that a run depends on. *)
Record World : Type := mkWorld {
  environ : gmap string string;                     (* os.environ *)
  praw_Reddit : result Praw.Reddit;                 (* praw.Reddit(...) *)
  hot : string -> Z -> list Praw.Submission;        (* .subreddit(sub).hot(limit=lim) *)
  train : list string -> result unit                (* outcome of bot.train(...) *)
}.

(** What an interactive mode writes or does, in order. *)
Inductive Output : Type :=
| Stdout (text : string)        (* print, or the prompt of input *)
| Effect (ev : Event).

(** [except (KeyboardInterrupt, EOFError, SystemExit)] *)
Definition interrupts (exc : Exn) : bool :=
  match exc with
  | SystemExit _ => true
  | OtherException name _ =>
      String.eqb name "KeyboardInterrupt" || String.eqb name "EOFError"
  | _ => false
  end.


(** The effects among the outputs. *)
Definition effects (out : list Output) : list Event :=
  omap (fun o => match o with Effect ev => Some ev | Stdout _ => None end) out.

(** A value of the dictionary [docopt] returns. *)
Inductive ArgValue : Type :=
| ArgNone
| ArgStr (s : string)
| ArgBool (b : bool).

(** Truth value of an [ArgValue] in a condition. *)
Definition truthy (v : ArgValue) : bool :=
  match v with
  | ArgNone => false
  | ArgStr s => negb (String.eqb s "")
  | ArgBool b => b
  end.

(** [key in args and args.get(key)] *)
Definition given (args : gmap string ArgValue) (key : string) : bool :=
  match args !! key with
  | Some v => truthy v
  | None => false
  end.

(** [v == s] for a string literal [s]. *)
Definition arg_is (v : ArgValue) (s : string) : bool :=
  match v with
  | ArgStr t => String.eqb t s
  | _ => false
  end.

(** The mode functions [main] dispatches to whose bodies are calls into
    chatterbot and tweepy only; each is what a run of it does. *)
Record Modes : Type := mkModes {
  english_training : M unit;
  word_list_training : M unit;
  ubuntu_training : M unit;
  twitter_training : M unit;
  manual_training : M unit;
  feedback_training : M unit;
  feedback_bot : M unit;
  hipchat_bot : M unit;
  gitter_bot : M unit;
  twitter_bot : M unit;
  voice_bot : M unit
}.

Definition sys_exit {A} (code : Z) : M A := raise (SystemExit code).

(** [bot.train(statements)]: the call is observed, then the sink answers. *)
Definition bot_train (w : World) (statements : list string) : M unit :=
  emit (Train statements);; lift (train w statements).

(** ** [edward.py] *)

Module Edward.

Definition get_reddit_envars (env : gmap string string)
  : M (string * string * string * string) :=
  client_id ←
    match env !! "REDDIT_CLIENT_ID" with
    | None => LOG ERROR "export REDDIT_CLIENT_ID=''" [];; sys_exit 1
    | Some v => ret v
    end;
  client_secret ←
    match env !! "REDDIT_CLIENT_SECRET" with
    | None => LOG ERROR "export REDDIT_CLIENT_SECRET=''" [];; sys_exit 1
    | Some v => ret v
    end;
  username ←
    match env !! "REDDIT_USERNAME" with
    | None => LOG ERROR "export REDDIT_USERNAME=''" [];; sys_exit 1
    | Some v => ret v
    end;
  password ←
    match env !! "REDDIT_PASSWORD" with
    | None => LOG ERROR "export REDDIT_PASSWORD=''" [];; sys_exit 1
    | Some v => ret v
    end;
  ret (client_id, client_secret, username, password).

(** The [except AssertionError] clause leaves [reddit] unbound, so the
    final [return reddit] raises. *)
Definition get_reddit (w : World) : M Praw.Reddit :=
  '(client_id, client_secret, username, password) ← get_reddit_envars (environ w);
  LOG DEBUG "%s" [AStr client_id];;
  LOG DEBUG "%s" [AStr client_secret];;
  LOG DEBUG "%s" [AStr username];;
  LOG DEBUG "%s" [AStr password];;
  reddit ← try_except
    (emit (NewReddit client_id client_secret username password);;
     r ← lift (praw_Reddit w);
     ret (Some r))
    (fun exc =>
       match exc with
       | AssertionError msg =>
           Some (if PyStr.contains "429" msg then
                   LOG WARNING "Exceeding rate limits: %s" [AExn exc];;
                   LOG WARNING "sleeping for 10 seconds" [];;
                   sleep 10;;
                   ret None
                 else ret None)
       | _ => None
       end);
  match reddit with
  | Some r => ret r
  | None => raise (UnboundLocalError "local variable 'reddit' referenced before assignment")
  end.

Definition chat_bot : M unit := emit (NewChatBot "Default Bot").

Definition slp : Q := 0.1.

(** [rep.body.strip('/r/').strip('^')] *)
Definition clean (text : string) : string :=
  PyStr.strip "^" (PyStr.strip "/r/" text).

(** One turn of [for _idx, rep in enumerate(comment.replies)]. *)
Definition reply_step (sub_comments : list string) (rep : Praw.Comment)
  : M (list string) :=
  let reply := clean (Praw.body rep) in
  if PyStr.len reply <? 80 then
    if negb (String.eqb reply "[removed]") then
      LOG DEBUG "Appending reply: %s" [AStr reply];;
      ret (sub_comments ++ [reply])
    else ret sub_comments
  else
    LOG DEBUG "Reply is too long" [];;
    ret sub_comments.

Fixpoint reply_loop (reps : list Praw.Comment) (sub_comments : list string)
  : M (list string) :=
  match reps with
  | [] => ret sub_comments
  | rep :: reps' =>
      sub_comments' ← reply_step sub_comments rep;
      reply_loop reps' sub_comments'
  end.

(** One turn of [for comment in comments_list]. *)
Definition comment_body (w : World) (comment : Praw.Comment) : M unit :=
  sleep slp;;
  sub_comments ← reply_loop (Praw.replies comment) ([] ++ [Praw.body comment]);
  if Z.of_nat (length sub_comments) <? 5 then
    LOG DEBUG "Skipping: %s" [AList sub_comments]
  else
    LOG DEBUG "Comment is %s statements long" [AInt (Z.of_nat (length sub_comments))];;
    bot_train w sub_comments;;
    LOG INFO "Training: %s" [AList sub_comments];;
    LOG INFO "--------------------------------------------" [].

(** The body of the [try] statement. *)
Definition submission_body (w : World) (submission : Praw.Submission) : M unit :=
  LOG DEBUG "Title: %s" [AStr (Praw.title submission)];;
  LOG DEBUG "Score: %s" [AInt (Praw.score submission)];;
  LOG DEBUG "ID: %s" [AStr (Praw.id submission)];;
  LOG DEBUG "URL: %s" [AStr (Praw.url submission)];;
  match Praw.author submission with
  | Some a =>
      LOG DEBUG "Author: %s" [AStr (Praw.name a)];;
      karma ← (emit (FetchRedditor (Praw.name a));; lift (Praw.link_karma a));
      LOG DEBUG "Link karma: %s" [AInt karma];;
      comments_list ← (emit (FetchComments (Praw.id submission));;
                       lift (Praw.comments submission));
      for_each comments_list (comment_body w)
  | None => ret tt
  end.

(** The [except] clauses, in source order. *)
Definition handler (exc : Exn) : option (M unit) :=
  match exc with
  | APIException _ => Some (LOG ERROR "APIException: %s" [AExn exc])
  | ClientException _ => Some (LOG ERROR "ClientException: %s" [AExn exc])
  | PRAWException _ => Some (LOG ERROR "PRAWException: %s" [AExn exc])
  | AssertionError msg =>
      Some (if PyStr.contains "429" msg then
              LOG WARNING "Exceeding rate limits: %s" [AExn exc];;
              LOG WARNING "sleeping for 60 seconds" [];;
              sleep 60
            else ret tt)
  | _ => None
  end.

(** One turn of [for submission in reddit.subreddit(sub).hot(limit=lim)]. *)
Definition submission_step (w : World) (submission : Praw.Submission) : M unit :=
  try_except (submission_body w submission) handler.

Definition harvest (w : World) (submissions : list Praw.Submission) : M unit :=
  for_each submissions (submission_step w).

Definition reddit_training (w : World) (sub : option string) (lim : option Z)
  : M unit :=
  chat_bot;;
  reddit ← get_reddit w;
  let reddit := {| Praw.read_only := true |} in
  LOG INFO "Read only?: %s" [ABool (Praw.read_only reddit)];;
  let sub := match sub with
             | Some s => if String.eqb s "" then "all" else s
             | None => "all"
             end in
  let lim := match lim with
             | Some n => if n =? 0 then 9 else n
             | None => 9
             end in
  emit (HotListing sub lim);;
  harvest w (hot w sub lim).

(** [main] with [--training reddit]. *)
Definition main_reddit (w : World) : M unit :=
  reddit_training w (Some "all") (Some 99).

Definition get_gitter_envars (env : gmap string string)
  : M (string * string) :=
  gitter_room ←
    match env !! "GITTER_ROOM" with
    | None => LOG ERROR "export GITTER_ROOM=''" [];; sys_exit 1
    | Some v => ret v
    end;
  gitter_api_token ←
    match env !! "GITTER_API_TOKEN" with
    | None => LOG ERROR "export GITTER_API_TOKEN=''" [];; sys_exit 1
    | Some v => ret v
    end;
  ret (gitter_room, gitter_api_token).

Definition get_hipchat_envars (env : gmap string string)
  : M (string * string * string) :=
  hipchat_host ←
    match env !! "HIPCHAT_HOST" with
    | None => LOG ERROR "export HIPCHAT_HOST=''" [];; sys_exit 1
    | Some v => ret v
    end;
  hipchat_room ←
    match env !! "HIPCHAT_ROOM" with
    | None => LOG ERROR "export HIPCHAT_ROOM=''" [];; sys_exit 1
    | Some v => ret v
    end;
  hipchat_access_token ←
    match env !! "HIPCHAT_ACCESS_TOKEN" with
    | None => LOG ERROR "export HIPCHAT_ACCESS_TOKEN=''" [];; sys_exit 1
    | Some v => ret v
    end;
  ret (hipchat_host, hipchat_room, hipchat_access_token).

Definition get_twitter_envars (env : gmap string string)
  : M (string * string * string * string) :=
  twitter_key ←
    match env !! "TWITTER_KEY" with
    | None => LOG ERROR "export TWITTER_KEY=''" [];; sys_exit 1
    | Some v => ret v
    end;
  twitter_secret ←
    match env !! "TWITTER_SECRET" with
    | None => LOG ERROR "export TWITTER_SECRET=''" [];; sys_exit 1
    | Some v => ret v
    end;
  twitter_token ←
    match env !! "TWITTER_TOKEN" with
    | None => LOG ERROR "export TWITTER_TOKEN=''" [];; sys_exit 1
    | Some v => ret v
    end;
  twitter_token_secret ←
    match env !! "TWITTER_TOKEN_SECRET" with
    | None => LOG ERROR "export TWITTER_TOKEN_SECRET=''" [];; sys_exit 1
    | Some v => ret v
    end;
  ret (twitter_key, twitter_secret, twitter_token, twitter_token_secret).

Definition get_sub_comments (comment : Praw.Comment) : list string :=
  ([] ++ [Praw.body comment]) ++ map Praw.body (Praw.replies comment).

Definition export (filename : ArgValue) : ArgValue := filename.

(** [main].  A local variable that was never assigned is [None]; reading it
    raises [UnboundLocalError]. *)
Definition main (w : World) (modes : Modes) (args : gmap string ArgValue) : M unit :=
  let bot := if given args "--bot" then args !! "--bot" else None in
  let training := if given args "--training" then args !! "--training" else None in
  let _exported := if given args "--export"
                   then export <$> (args !! "--export") else None in
  training ← match training with
             | Some v => ret v
             | None => raise (UnboundLocalError
                                "local variable 'training' referenced before assignment")
             end;
  (if arg_is training "english" then english_training modes
   else if arg_is training "word_list" then word_list_training modes
   else if arg_is training "ubuntu" then ubuntu_training modes
   else if arg_is training "reddit" then reddit_training w (Some "all") (Some 99)
   else if arg_is training "twitter" then twitter_training modes
   else ret tt);;
  bot ← match bot with
        | Some v => ret v
        | None => raise (UnboundLocalError
                           "local variable 'bot' referenced before assignment")
        end;
  (if arg_is bot "feedback" then feedback_bot modes else ret tt);;
  (if arg_is bot "hipchat" then hipchat_bot modes
   else if arg_is bot "gitter" then gitter_bot modes
   else if arg_is bot "twitter" then twitter_bot modes
   else if arg_is bot "voice" then voice_bot modes
   else ret tt).

End Edward.

(** ** [bot.py] *)

Module Bot.

Definition get_reddit_envars (env : gmap string string)
  : M (string * string * string * string) :=
  client_id ←
    match env !! "REDDIT_CLIENT_ID" with
    | None => LOG ERROR "export REDDIT_CLIENT_ID=''" [];; sys_exit 1
    | Some v => ret v
    end;
  client_secret ←
    match env !! "REDDIT_CLIENT_SECRET" with
    | None => LOG ERROR "export REDDIT_CLIENT_SECRET=''" [];; sys_exit 1
    | Some v => ret v
    end;
  username ←
    match env !! "REDDIT_USERNAME" with
    | None => LOG ERROR "export REDDIT_USERNAME=''" [];; sys_exit 1
    | Some v => ret v
    end;
  password ←
    match env !! "REDDIT_PASSWORD" with
    | None => LOG ERROR "export REDDIT_PASSWORD=''" [];; sys_exit 1
    | Some v => ret v
    end;
  ret (client_id, client_secret, username, password).

Definition get_reddit (w : World) : M Praw.Reddit :=
  '(client_id, client_secret, username, password) ← get_reddit_envars (environ w);
  LOG DEBUG "%s" [AStr client_id];;
  LOG DEBUG "%s" [AStr client_secret];;
  LOG DEBUG "%s" [AStr username];;
  LOG DEBUG "%s" [AStr password];;
  emit (NewReddit client_id client_secret username password);;
  lift (praw_Reddit w).

Definition get_sub_comments (comment : Praw.Comment) : list string :=
  ([] ++ [Praw.body comment]) ++ map Praw.body (Praw.replies comment).

Definition chat_bot : M unit := emit (NewChatBot "Useless Bot").

Definition slp : Q := 3.

(** One turn of [for comment in comments_list]. *)
Definition comment_body (w : World) (comment : Praw.Comment) : M unit :=
  let sub_comments := get_sub_comments comment in
  LOG INFO "Training: %s" [AList sub_comments];;
  bot_train w sub_comments.

(** [submission.author.link_karma]: attribute access on [None] raises. *)
Definition author_link_karma (submission : Praw.Submission) : M Z :=
  match Praw.author submission with
  | Some a => emit (FetchRedditor (Praw.name a));; lift (Praw.link_karma a)
  | None => raise (AttributeError "'NoneType' object has no attribute 'link_karma'")
  end.

(** The body of the [try] statement. *)
Definition submission_body (w : World) (submission : Praw.Submission) : M unit :=
  LOG INFO "Title: %s" [AStr (Praw.title submission)];;
  LOG INFO "Score: %s" [AInt (Praw.score submission)];;
  LOG INFO "ID: %s" [AStr (Praw.id submission)];;
  LOG INFO "URL: %s" [AStr (Praw.url submission)];;
  LOG INFO "Author: %s" [match Praw.author submission with
                         | Some a => AStr (Praw.name a)
                         | None => ANone
                         end];;
  karma ← author_link_karma submission;
  LOG INFO "Link karma: %s" [AInt karma];;
  comments_list ← (emit (FetchComments (Praw.id submission));;
                   lift (Praw.comments submission));
  for_each comments_list (comment_body w);;
  LOG INFO "--------------------------------------------------------" [].

(** The [except] clauses, in source order. *)
Definition handler (exc : Exn) : option (M unit) :=
  match exc with
  | APIException _ => Some (LOG ERROR "APIException: %s" [AExn exc])
  | ClientException _ => Some (LOG ERROR "ClientException: %s" [AExn exc])
  | PRAWException _ => Some (LOG ERROR "PRAWException: %s" [AExn exc])
  | AssertionError msg =>
      Some (if PyStr.contains "429" msg then
              LOG WARNING "Exceeding rate limits: %s" [AExn exc];;
              LOG WARNING "sleeping for 60 seconds" [];;
              sleep 60
            else ret tt)
  | _ => None
  end.

(** One turn of [for submission in reddit.subreddit(sub).hot(limit=lim)]. *)
Definition submission_step (w : World) (submission : Praw.Submission) : M unit :=
  sleep slp;;
  try_except (submission_body w submission) handler.

Definition harvest (w : World) (submissions : list Praw.Submission) : M unit :=
  for_each submissions (submission_step w).

Definition reddit_training (w : World) : M unit :=
  chat_bot;;
  reddit ← get_reddit w;
  LOG INFO "Read only?: %s" [ABool (Praw.read_only reddit)];;
  let lim := 9 in
  let sub := "all" in
  emit (HotListing sub lim);;
  harvest w (hot w sub lim).

Definition get_gitter_envars (env : gmap string string)
  : M (string * string) :=
  gitter_room ←
    match env !! "GITTER_ROOM" with
    | None => LOG ERROR "export GITTER_ROOM=''" [];; sys_exit 1
    | Some v => ret v
    end;
  gitter_api_token ←
    match env !! "GITTER_API_TOKEN" with
    | None => LOG ERROR "export GITTER_API_TOKEN=''" [];; sys_exit 1
    | Some v => ret v
    end;
  ret (gitter_room, gitter_api_token).

Definition get_hipchat_envars (env : gmap string string)
  : M (string * string * string) :=
  hipchat_host ←
    match env !! "HIPCHAT_HOST" with
    | None => LOG ERROR "export HIPCHAT_HOST=''" [];; sys_exit 1
    | Some v => ret v
    end;
  hipchat_room ←
    match env !! "HIPCHAT_ROOM" with
    | None => LOG ERROR "export HIPCHAT_ROOM=''" [];; sys_exit 1
    | Some v => ret v
    end;
  hipchat_access_token ←
    match env !! "HIPCHAT_ACCESS_TOKEN" with
    | None => LOG ERROR "export HIPCHAT_ACCESS_TOKEN=''" [];; sys_exit 1
    | Some v => ret v
    end;
  ret (hipchat_host, hipchat_room, hipchat_access_token).

Definition get_twitter_envars (env : gmap string string)
  : M (string * string * string * string) :=
  twitter_key ←
    match env !! "TWITTER_KEY" with
    | None => LOG ERROR "export TWITTER_KEY=''" [];; sys_exit 1
    | Some v => ret v
    end;
  twitter_secret ←
    match env !! "TWITTER_SECRET" with
    | None => LOG ERROR "export TWITTER_SECRET=''" [];; sys_exit 1
    | Some v => ret v
    end;
  twitter_token ←
    match env !! "TWITTER_TOKEN" with
    | None => LOG ERROR "export TWITTER_TOKEN=''" [];; sys_exit 1
    | Some v => ret v
    end;
  twitter_token_secret ←
    match env !! "TWITTER_TOKEN_SECRET" with
    | None => LOG ERROR "export TWITTER_TOKEN_SECRET=''" [];; sys_exit 1
    | Some v => ret v
    end;
  ret (twitter_key, twitter_secret, twitter_token, twitter_token_secret).

(** [main] *)
Definition main (w : World) (modes : Modes) (args : gmap string ArgValue) : M unit :=
  let training := if given args "--training" then args !! "--training" else None in
  training ← match training with
             | Some v => ret v
             | None => raise (UnboundLocalError
                                "local variable 'training' referenced before assignment")
             end;
  if arg_is training "english" then english_training modes
  else if arg_is training "manual" then manual_training modes
  else if arg_is training "feedback" then feedback_training modes
  else if arg_is training "ubuntu" then ubuntu_training modes
  else if arg_is training "reddit" then reddit_training w
  else if arg_is training "twitter" then twitter_training modes
  else if arg_is training "hipchat" then hipchat_bot modes
  else if arg_is training "gitter" then gitter_bot modes
  else LOG ERROR "Unknown training mode" [].



(** The [while True] loop of [manual_training]: [respond n comment] is what
    the [n]-th call [bot.get_response(comment)] gives, as text. *)
Fixpoint manual_loop (w : World) (respond : nat -> string -> result string)
    (n : nat) (response : string) (stdin : list string) : list Output * result unit :=
  let response := response +:+ ": " in
  match stdin with
  | [] => ([Stdout response], Ok tt)
  | comment :: stdin' =>
      let training := ([] ++ [response]) ++ [comment] in
      match respond n comment with
      | Raise exc => ([Stdout response], if interrupts exc then Ok tt else Raise exc)
      | Ok response' =>
          let out :=
            [Stdout response;
             Effect (Log INFO "Comment: %s" [AStr comment]);
             Effect (Log INFO "Response: %s" [AStr response']);
             Effect (Log INFO "Training bot: %s" [AList training]);
             Effect (Train training)] in
          match train w training with
          | Raise exc => (out, if interrupts exc then Ok tt else Raise exc)
          | Ok _ =>
              let (out', r) := manual_loop w respond (S n) response' stdin' in
              (out ++ out', r)
          end
      end
  end.

Definition manual_training (w : World) (respond : nat -> string -> result string)
    (stdin : list string) : list Output * result unit :=
  let (out, r) := manual_loop w respond 0 "How can I help you?" stdin in
  (Effect (NewChatBot "Useless Bot") :: out, r).

End Bot.

(** ** Observations on a trace *)

(** The sequences handed to the training sink, in order. *)
Definition trained (tr : list Event) : list (list string) :=
  omap (fun ev => match ev with Train s => Some s | _ => None end) tr.

(** The number of [sleep(d)] calls. *)
Definition pauses (d : Q) (tr : list Event) : nat :=
  length (List.filter
            (fun ev => match ev with Sleep x => Qeq_bool x d | _ => false end) tr).

(** The log records written at level [lvl] or above it in the listed ones. *)
Definition logged (lvls : list Level) (tr : list Event) : list Event :=
  List.filter
    (fun ev => match ev with
               | Log l _ _ => existsb (fun l' => match l, l' with
                                                 | DEBUG, DEBUG | INFO, INFO
                                                 | WARNING, WARNING | ERROR, ERROR => true
                                                 | _, _ => false
                                                 end) lvls
               | _ => false
               end) tr.

(** Requests sent to the content source. *)
Definition source_calls (tr : list Event) : list Event :=
  List.filter
    (fun ev => match ev with
               | NewReddit _ _ _ _ | HotListing _ _
               | FetchRedditor _ | FetchComments _ => true
               | _ => false
               end) tr.

(** ** The filter of [edward.reddit_training], stated on its own *)

(** A cleaned reply is kept when it is shorter than 80 characters and is
    not the text ['[removed]']. *)
Definition passes_filter (reply : string) : Prop :=
  (String.length reply < 80)%nat /\ reply <> "[removed]".

#[global] Instance passes_filter_dec reply : Decision (passes_filter reply).
Proof. unfold passes_filter. apply _. Defined.

(** The cleaned texts of the direct replies of a comment, in source order. *)
Definition cleaned_replies (comment : Praw.Comment) : list string :=
  map (fun rep => Edward.clean (Praw.body rep)) (Praw.replies comment).

(** The sequence a comment stands for: its own text, then the cleaned
    replies that pass the filter, in source order. *)
Definition sequence_of (comment : Praw.Comment) : list string :=
  Praw.body comment :: filter passes_filter (cleaned_replies comment).

(** ** Derived notions and sample inputs *)

(** A trace made of debug records only. *)
Definition quiet (tr : list Event) : Prop :=
  Forall (fun ev => match ev with Log DEBUG _ _ => True | _ => False end) tr.

(** A sequence is long enough to be trained on. *)
Definition long_enough (s : list string) : Prop := (5 <= length s)%nat.

#[global] Instance long_enough_dec s : Decision (long_enough s).
Proof. unfold long_enough. apply _. Defined.

(** The four records that open the [try] body. *)
Definition header (submission : Praw.Submission) : list Event :=
  [Log DEBUG "Title: %s" [AStr (Praw.title submission)];
   Log DEBUG "Score: %s" [AInt (Praw.score submission)];
   Log DEBUG "ID: %s" [AStr (Praw.id submission)];
   Log DEBUG "URL: %s" [AStr (Praw.url submission)]].

(** The comments a submission exposes once author and comments were fetched. *)
Definition reachable_comments (submission : Praw.Submission) : list Praw.Comment :=
  match Praw.author submission with
  | Some a =>
      match Praw.link_karma a, Praw.comments submission with
      | Ok _, Ok cs => cs
      | _, _ => []
      end
  | None => []
  end.

Definition leaf (text : string) : Praw.Comment := Praw.mkComment text [].

Definition ninety_x : string :=
  "xxxxxxxxxxxxxxxxxxxxxxxxxxxxxxxxxxxxxxxxxxxxxxxxxxxxxxxxxxxxxxxxxxxxxxxxxxxxxxxxxxxxxxxxxx".

(** A comment with six direct replies, two of which the filter drops. *)
Definition hi_comment : Praw.Comment :=
  Praw.mkComment "hi"
    [leaf "hello there"; leaf "[removed]"; leaf ninety_x;
     leaf "/r/aww"; leaf "^^up"; leaf "ok"].

(** A comment whose own text is ['[removed]'], with four short replies. *)
Definition removed_comment : Praw.Comment :=
  Praw.mkComment "[removed]" [leaf "a"; leaf "b"; leaf "c"; leaf "d"].

Definition alice : Praw.Redditor := Praw.mkRedditor "alice" (Ok 7).

Definition thread (ident : string) (cs : list Praw.Comment) : Praw.Submission :=
  Praw.mkSubmission "title" 1 ident "http://example.org" (Some alice) (Ok cs).

Definition deleted_thread : Praw.Submission :=
  Praw.mkSubmission "gone" 0 "t0" "http://example.org" None (Ok [removed_comment]).

Definition credentials : gmap string string :=
  {[ "REDDIT_CLIENT_ID" := "id"; "REDDIT_CLIENT_SECRET" := "secret";
     "REDDIT_USERNAME" := "user"; "REDDIT_PASSWORD" := "pass" ]}.

(** A world whose sink always succeeds and whose listing is [submissions]. *)
Definition calm_world (submissions : list Praw.Submission) : World :=
  mkWorld credentials (Ok (Praw.mkReddit false)) (fun _ _ => submissions)
          (fun _ => Ok tt).

(** The format string of the clause that catches a praw exception. *)
Definition praw_clause (exc : Exn) : option string :=
  match exc with
  | APIException _ => Some "APIException: %s"
  | ClientException _ => Some "ClientException: %s"
  | PRAWException _ => Some "PRAWException: %s"
  | _ => None
  end.

(** A sink that fails with [exc] on the sequences that start with ["boom"]. *)
Definition picky_world (exc : Exn) (submissions : list Praw.Submission) : World :=
  mkWorld credentials (Ok (Praw.mkReddit false)) (fun _ _ => submissions)
          (fun s => if decide (head s = Some "boom") then Raise exc else Ok tt).

Definition boom_comment : Praw.Comment :=
  Praw.mkComment "boom" [leaf "a"; leaf "b"; leaf "c"; leaf "d"].

Definition three_threads : list Praw.Submission :=
  [thread "t1" [hi_comment]; thread "t2" [boom_comment; hi_comment];
   thread "t3" [removed_comment]].

(** The records [bot.py] writes before it reads [link_karma]. *)
Definition bot_header (submission : Praw.Submission) : list Event :=
  [Log INFO "Title: %s" [AStr (Praw.title submission)];
   Log INFO "Score: %s" [AInt (Praw.score submission)];
   Log INFO "ID: %s" [AStr (Praw.id submission)];
   Log INFO "URL: %s" [AStr (Praw.url submission)];
   Log INFO "Author: %s" [match Praw.author submission with
                          | Some a => AStr (Praw.name a)
                          | None => ANone
                          end]].

(** The direct replies of the comments a submission exposes. *)
Definition direct_replies (submission : Praw.Submission) : nat :=
  length (concat (map Praw.replies (reachable_comments submission))).

(** A trace without any [sleep]. *)
Definition sleepless (tr : list Event) : Prop :=
  Forall (fun ev => match ev with Sleep _ => False | _ => True end) tr.

(** The variables [get_reddit_envars] reads, in source order. *)
Definition reddit_variables : list string :=
  ["REDDIT_CLIENT_ID"; "REDDIT_CLIENT_SECRET"; "REDDIT_USERNAME"; "REDDIT_PASSWORD"].

(** The first of them that is unset. *)
Definition first_unset (env : gmap string string) : option string :=
  List.find (fun var => match env !! var with None => true | Some _ => false end)
            reddit_variables.


(** The first variable of [vars] that [env] does not set. *)
Definition first_unset_in (vars : list string) (env : gmap string string)
  : option string :=
  List.find (fun var => match env !! var with None => true | Some _ => false end) vars.

(** A world with all credentials in which [praw.Reddit(...)] raises [exc]. *)
Definition no_client_world (exc : Exn) : World :=
  mkWorld credentials (Raise exc) (fun _ _ => [thread "t1" [hi_comment]])
          (fun _ => Ok tt).

(** An author whose [link_karma] cannot be fetched. *)
Definition suspended (exc : Exn) : Praw.Redditor := Praw.mkRedditor "bob" (Raise exc).

(** A submission by such an author, with comments that could be fetched. *)
Definition suspended_thread (exc : Exn) : Praw.Submission :=
  Praw.mkSubmission "title" 1 "t9" "http://example.org" (Some (suspended exc))
                    (Ok [removed_comment]).

(** Mode functions that each leave one record, to tell them apart. *)
Definition marked_modes : Modes :=
  mkModes (LOG INFO "english_training" []) (LOG INFO "word_list_training" [])
          (LOG INFO "ubuntu_training" []) (LOG INFO "twitter_training" [])
          (LOG INFO "manual_training" []) (LOG INFO "feedback_training" [])
          (LOG INFO "feedback_bot" []) (LOG INFO "hipchat_bot" [])
          (LOG INFO "gitter_bot" []) (LOG INFO "twitter_bot" [])
          (LOG INFO "voice_bot" []).

(** A reply of 90 characters that has four short replies of its own. *)
Definition long_reply : Praw.Comment :=
  Praw.mkComment ninety_x [leaf "a"; leaf "b"; leaf "c"; leaf "d"].

(** A top-level comment whose two direct replies are both dropped by the
    filter of its own sequence. *)
Definition top_comment : Praw.Comment :=
  Praw.mkComment "top" [long_reply; removed_comment].

(** The comment list of a submission whose only top-level comment is
    [top_comment], flattened: every reply is in the list as a comment. *)
Definition flattened : list Praw.Comment :=
  [top_comment; long_reply; removed_comment; leaf "a"; leaf "b"; leaf "c"; leaf "d"].

(** An authentication failure as prawcore raises it. *)
Definition oauth_error : Exn :=
  OtherException "prawcore.exceptions.OAuthException"
                 "invalid_grant error processing request".

(** A submission whose comments cannot be fetched because of [exc]. *)
Definition refused_thread (exc : Exn) : Praw.Submission :=
  Praw.mkSubmission "title" 1 "t2" "http://example.org" (Some alice) (Raise exc).

(** ** Laws of the effect monad *)

Section MonadLaws.
Context {A B : Type}.
Implicit Types (m : M A) (k : A -> M B).

Lemma bind_Ok m k a :
  outcome m = Ok a -> m ≫= k = (trace m ++ trace (k a), outcome (k a)).
Proof.
  destruct m as [tr r]; simpl; intros ->.
  unfold mbind, M_bind, bind. by destruct (k a).
Qed.

Lemma bind_Raise m k e :
  outcome m = Raise e -> m ≫= k = (trace m, Raise e).
Proof. destruct m as [tr r]; simpl; intros ->. reflexivity. Qed.

Lemma bind_emit (ev : Event) (k : unit -> M B) :
  emit ev ≫= k = (ev :: trace (k tt), outcome (k tt)).
Proof. unfold mbind, M_bind, bind, emit. by destruct (k tt). Qed.

Lemma bind_ret (a : A) k : ret a ≫= k = k a.
Proof. unfold mbind, M_bind, bind, ret. by destruct (k a). Qed.

End MonadLaws.

Lemma trained_app tr1 tr2 : trained (tr1 ++ tr2) = trained tr1 ++ trained tr2.
Proof. apply omap_app. Qed.

Lemma pauses_app d tr1 tr2 : pauses d (tr1 ++ tr2) = (pauses d tr1 + pauses d tr2)%nat.
Proof. unfold pauses. by rewrite List.filter_app, length_app. Qed.

(** A loop runs its turns in order and stops at the first one that raises. *)
Lemma for_each_cons {A} (f : A -> M unit) x l :
  for_each (x :: l) f =
  match outcome (f x) with
  | Ok _ => (trace (f x) ++ trace (for_each l f), outcome (for_each l f))
  | Raise e => (trace (f x), Raise e)
  end.
Proof.
  simpl. destruct (f x) as [tr [[]|e]] eqn:E; simpl.
  - unfold mbind, M_bind, bind. by destruct (for_each l f).
  - reflexivity.
Qed.

Lemma for_each_prefix {A} (f : A -> M unit) l :
  exists n, (n <= length l)%nat /\
    trace (for_each l f) = concat (map (fun x => trace (f x)) (take n l)) /\
    ((forall x, In x l -> exists u, outcome (f x) = Ok u) ->
     n = length l /\ outcome (for_each l f) = Ok tt).
Proof.
  induction l as [|x l IH].
  - exists 0%nat. simpl. auto.
  - destruct IH as (n & Hn & Htr & Hall).
    rewrite for_each_cons. destruct (outcome (f x)) as [u|e] eqn:E.
    + exists (S n). simpl. split; [lia|]. split; [by rewrite Htr|].
      intros Hx. destruct Hall as [-> Hok]; auto.
    + exists 1%nat. simpl. rewrite ?take_0. simpl. rewrite ?app_nil_r.
      split; [lia|]. split; [done|].
      intros Hx. destruct (Hx x) as [u Hu]; auto. congruence.
Qed.

(** ** The reply loop *)

Lemma quiet_trained tr : quiet tr -> trained tr = [].
Proof.
  induction 1 as [|ev tr Hev _ IH]; [done|].
  destruct ev as [|lvl fmt args| | | | | |]; try done; destruct lvl; done.
Qed.

Lemma quiet_pauses d tr : quiet tr -> pauses d tr = 0%nat.
Proof.
  induction 1 as [|ev tr Hev _ IH]; [done|].
  destruct ev as [|lvl fmt args| | | | | |]; try done; destruct lvl; done.
Qed.

Lemma quiet_app tr1 tr2 : quiet tr1 -> quiet tr2 -> quiet (tr1 ++ tr2).
Proof. apply Forall_app_2. Qed.

Lemma len_lt_80 reply : (PyStr.len reply <? 80) = true <-> (String.length reply < 80)%nat.
Proof. unfold PyStr.len. rewrite Z.ltb_lt. lia. Qed.

Lemma passes_filter_test reply :
  (PyStr.len reply <? 80) && negb (String.eqb reply "[removed]") = true
  <-> passes_filter reply.
Proof.
  unfold passes_filter.
  rewrite andb_true_iff, len_lt_80, negb_true_iff.
  destruct (String.eqb_spec reply "[removed]"); intuition congruence.
Qed.

Lemma reply_step_spec sub_comments rep :
  exists tr, quiet tr /\
    Edward.reply_step sub_comments rep =
    (tr, Ok (if decide (passes_filter (Edward.clean (Praw.body rep)))
             then sub_comments ++ [Edward.clean (Praw.body rep)]
             else sub_comments)).
Proof.
  unfold Edward.reply_step, LOG.
  set (reply := Edward.clean (Praw.body rep)).
  pose proof (passes_filter_test reply) as Ht.
  destruct (decide (passes_filter reply)) as [Hp|Hp].
  - apply Ht in Hp as Hb. apply andb_true_iff in Hb as [-> ->].
    exists [Log DEBUG "Appending reply: %s" [AStr reply]].
    split; [repeat constructor|]. by rewrite bind_emit.
  - destruct (PyStr.len reply <? 80) eqn:Hlen;
      [destruct (String.eqb reply "[removed]") eqn:Heq|].
    + exists []. split; [constructor|done].
    + exfalso. apply Hp, Ht. reflexivity.
    + exists [Log DEBUG "Reply is too long" []].
      split; [repeat constructor|]. by rewrite bind_emit.
Qed.

Lemma reply_loop_spec reps sub_comments :
  exists tr, quiet tr /\
    Edward.reply_loop reps sub_comments =
    (tr, Ok (sub_comments ++
             filter passes_filter (map (fun rep => Edward.clean (Praw.body rep)) reps))).
Proof.
  revert sub_comments. induction reps as [|rep reps IH]; intros sub_comments.
  - exists []. split; [constructor|]. simpl. by rewrite app_nil_r.
  - destruct (reply_step_spec sub_comments rep) as (tr1 & Hq1 & E1).
    simpl Edward.reply_loop. rewrite (bind_Ok _ _ _ (f_equal snd E1)).
    rewrite E1. simpl trace.
    match goal with |- context [Edward.reply_loop reps ?acc] =>
      destruct (IH acc) as (tr2 & Hq2 & E2); rewrite E2 end.
    exists (tr1 ++ tr2). split; [by apply quiet_app|].
    simpl. f_equal. f_equal.
    rewrite filter_cons. destruct (decide _); [by rewrite <- app_assoc|done].
Qed.

(** A comment's loop builds exactly [sequence_of]. *)
Lemma reply_loop_sequence comment :
  exists tr, quiet tr /\
    Edward.reply_loop (Praw.replies comment) ([] ++ [Praw.body comment]) =
    (tr, Ok (sequence_of comment)).
Proof.
  destruct (reply_loop_spec (Praw.replies comment) ([] ++ [Praw.body comment]))
    as (tr & Hq & E).
  exists tr. split; [done|]. rewrite E. reflexivity.
Qed.

(** ** One comment *)

Lemma comment_body_spec w comment :
  exists tr, quiet tr /\
    Edward.comment_body w comment =
    let s := sequence_of comment in
    if decide (long_enough s) then
      match train w s with
      | Ok _ =>
          (Sleep Edward.slp :: tr ++
             [Log DEBUG "Comment is %s statements long" [AInt (Z.of_nat (length s))];
              Train s;
              Log INFO "Training: %s" [AList s];
              Log INFO "--------------------------------------------" []],
           Ok tt)
      | Raise e =>
          (Sleep Edward.slp :: tr ++
             [Log DEBUG "Comment is %s statements long" [AInt (Z.of_nat (length s))];
              Train s],
           Raise e)
      end
    else (Sleep Edward.slp :: tr ++ [Log DEBUG "Skipping: %s" [AList s]], Ok tt).
Proof.
  destruct (reply_loop_sequence comment) as (tr & Hq & E).
  exists tr. split; [done|].
  unfold Edward.comment_body, sleep, LOG, bot_train.
  rewrite bind_emit, (bind_Ok _ _ _ (f_equal snd E)), E. simpl trace. simpl outcome.
  cbv zeta. set (s := sequence_of comment).
  destruct (decide (long_enough s)) as [Hl|Hl]; unfold long_enough in Hl;
    subst s; simpl in Hl;
    match goal with |- context [?n <? 5] => destruct (Z.ltb_spec n 5) end;
    try lia.
  - destruct (train w _) as [[]|e]; reflexivity.
  - reflexivity.
Qed.

Lemma trained_quiet_snoc tr evs : quiet tr -> trained (tr ++ evs) = trained evs.
Proof. intros Hq. by rewrite trained_app, (quiet_trained _ Hq). Qed.

(** The sink sees the sequence of a comment exactly when it is long enough. *)
Lemma comment_body_trained w comment :
  trained (trace (Edward.comment_body w comment)) =
  if decide (long_enough (sequence_of comment)) then [sequence_of comment] else [].
Proof.
  destruct (comment_body_spec w comment) as (tr & Hq & ->). cbv zeta.
  destruct (decide _); [destruct (train w _)|]; simpl trace;
    change (trained (?e :: ?l)) with (trained l); by rewrite trained_quiet_snoc.
Qed.

(** One pause of [slp] for a comment, however many replies it has. *)
Lemma comment_body_pauses w comment :
  pauses Edward.slp (trace (Edward.comment_body w comment)) = 1%nat.
Proof.
  destruct (comment_body_spec w comment) as (tr & Hq & ->). cbv zeta.
  destruct (decide _); [destruct (train w _)|]; simpl trace;
    change (pauses ?d (Sleep ?d :: ?l)) with (S (pauses d l));
    by rewrite pauses_app, (quiet_pauses _ _ Hq).
Qed.

Lemma comment_body_outcome w comment :
  outcome (Edward.comment_body w comment) =
  if decide (long_enough (sequence_of comment)) then train w (sequence_of comment)
  else Ok tt.
Proof.
  destruct (comment_body_spec w comment) as (tr & Hq & ->). cbv zeta.
  destruct (decide _); [destruct (train w _) as [[]|]|]; reflexivity.
Qed.

(** ** One submission *)

Lemma trained_concat_map {A} (g : A -> list Event) (l : list A) :
  trained (concat (map g l)) = concat (map (fun x => trained (g x)) l).
Proof. induction l as [|x l IH]; [done|]. simpl. by rewrite trained_app, IH. Qed.

Lemma pauses_concat_map {A} d (g : A -> list Event) (l : list A) :
  (forall x, pauses d (g x) = 1%nat) -> pauses d (concat (map g l)) = length l.
Proof.
  intros Hg. induction l as [|x l IH]; [done|].
  simpl. by rewrite pauses_app, Hg, IH.
Qed.

Lemma concat_long_enough (l : list Praw.Comment) :
  concat (map (fun c => if decide (long_enough (sequence_of c))
                        then [sequence_of c] else []) l) =
  filter long_enough (map sequence_of l).
Proof.
  induction l as [|c l IH]; [done|].
  simpl. rewrite filter_cons, IH. by destruct (decide _).
Qed.

(** The comment loop handles a prefix of the list: all of it unless the sink
    raises. *)
Lemma comment_loop_spec w (cs : list Praw.Comment) :
  exists n, (n <= length cs)%nat /\
    trained (trace (for_each cs (Edward.comment_body w))) =
      filter long_enough (map sequence_of (take n cs)) /\
    pauses Edward.slp (trace (for_each cs (Edward.comment_body w))) = n /\
    ((forall s, train w s = Ok tt) ->
     n = length cs /\ outcome (for_each cs (Edward.comment_body w)) = Ok tt).
Proof.
  destruct (for_each_prefix (Edward.comment_body w) cs) as (n & Hn & Htr & Hall).
  exists n. split; [done|]. rewrite Htr. split; [|split].
  - rewrite trained_concat_map.
    rewrite <- concat_long_enough. f_equal. apply map_ext.
    intros c. apply comment_body_trained.
  - rewrite pauses_concat_map by apply comment_body_pauses.
    rewrite length_take. lia.
  - intros Hsink. apply Hall. intros c _. exists tt.
    rewrite comment_body_outcome. by destruct (decide _).
Qed.

Lemma submission_body_deleted w submission :
  Praw.author submission = None ->
  Edward.submission_body w submission = (header submission, Ok tt).
Proof. unfold Edward.submission_body. intros ->. reflexivity. Qed.

Lemma submission_body_loop w submission :
  trained (trace (Edward.submission_body w submission)) =
    trained (trace (for_each (reachable_comments submission) (Edward.comment_body w))) /\
  pauses Edward.slp (trace (Edward.submission_body w submission)) =
    pauses Edward.slp
      (trace (for_each (reachable_comments submission) (Edward.comment_body w))).
Proof.
  unfold Edward.submission_body, reachable_comments, LOG.
  destruct (Praw.author submission) as [a|]; [|done].
  destruct (Praw.link_karma a) as [k|e]; [|done].
  destruct (Praw.comments submission) as [cs|e]; [|done].
  simpl. by destruct (for_each cs (Edward.comment_body w)).
Qed.

Lemma try_except_trace {A} (m : M A) h :
  trace (try_except m h) =
  trace m ++ match outcome m with
             | Ok _ => []
             | Raise e => match h e with Some m' => trace m' | None => [] end
             end.
Proof.
  destruct m as [tr [a|e]]; simpl; [by rewrite app_nil_r|].
  destruct (h e) as [[tr' r]|]; simpl; [done|by rewrite app_nil_r].
Qed.

Lemma try_except_outcome {A} (m : M A) h :
  outcome (try_except m h) =
  match outcome m with
  | Ok a => Ok a
  | Raise e => match h e with Some m' => outcome m' | None => Raise e end
  end.
Proof.
  destruct m as [tr [a|e]]; simpl; [done|].
  by destruct (h e) as [[tr' r]|].
Qed.

(** No clause of the handler trains, and none pauses for [slp]. *)
Lemma handler_trace exc m :
  Edward.handler exc = Some m ->
  trained (trace m) = [] /\ pauses Edward.slp (trace m) = 0%nat /\ outcome m = Ok tt.
Proof.
  destruct exc; simpl; intros [= <-]; try done.
  by destruct (PyStr.contains "429" msg).
Qed.

Lemma submission_step_spec w submission :
  exists n, (n <= length (reachable_comments submission))%nat /\
    trained (trace (Edward.submission_step w submission)) =
      filter long_enough (map sequence_of (take n (reachable_comments submission))) /\
    pauses Edward.slp (trace (Edward.submission_step w submission)) = n /\
    ((forall s, train w s = Ok tt) -> n = length (reachable_comments submission)).
Proof.
  destruct (comment_loop_spec w (reachable_comments submission))
    as (n & Hn & Htr & Hp & Hall).
  destruct (submission_body_loop w submission) as [Et Ep].
  assert (trained (trace (Edward.submission_step w submission)) =
            trained (trace (Edward.submission_body w submission)) /\
          pauses Edward.slp (trace (Edward.submission_step w submission)) =
            pauses Edward.slp (trace (Edward.submission_body w submission)))
    as [-> ->].
  { unfold Edward.submission_step. rewrite try_except_trace.
    rewrite trained_app, pauses_app.
    destruct (outcome (Edward.submission_body w submission)) as [|exc];
      [|destruct (Edward.handler exc) as [m|] eqn:Hh;
        [destruct (handler_trace _ _ Hh) as (-> & -> & _)|]];
      change (trained []) with (@nil (list string));
      change (pauses Edward.slp []) with 0%nat;
      rewrite app_nil_r, Nat.add_0_r; done. }
  exists n. rewrite Et, Ep. repeat split; try done. intros Hs. by apply Hall.
Qed.

(** ** The whole harvest *)

(** The submission loop handles a prefix of the listing: all of it unless an
    exception no clause catches ends the run. *)
Lemma harvest_trained w (submissions : list Praw.Submission) :
  exists k, (k <= length submissions)%nat /\
    trained (trace (Edward.harvest w submissions)) =
    concat (map (fun submission => trained (trace (Edward.submission_step w submission)))
                (take k submissions)).
Proof.
  destruct (for_each_prefix (Edward.submission_step w) submissions)
    as (k & Hk & Htr & _).
  exists k. split; [done|]. unfold Edward.harvest.
  by rewrite Htr, trained_concat_map.
Qed.

(** Whatever reaches the sink during a harvest is the sequence of a comment
    of one of the listed submissions, and is long enough. *)
Lemma harvest_emitted w submissions s :
  In s (trained (trace (Edward.harvest w submissions))) ->
  exists submission comment,
    In submission submissions /\
    In comment (reachable_comments submission) /\
    s = sequence_of comment /\ long_enough s.
Proof.
  destruct (harvest_trained w submissions) as (k & _ & ->).
  rewrite in_concat. intros (l & Hl & Hs).
  apply in_map_iff in Hl as (submission & <- & Hsub).
  destruct (submission_step_spec w submission) as (n & _ & E & _).
  rewrite E in Hs. apply list_elem_of_In, list_elem_of_filter in Hs as [Hlong Hs].
  apply list_elem_of_In, in_map_iff in Hs as (comment & <- & Hc).
  exists submission, comment. repeat split; [| |done].
  - apply list_elem_of_In, (subseteq_take k), list_elem_of_In, Hsub.
  - apply list_elem_of_In, (subseteq_take n), list_elem_of_In, Hc.
Qed.

(** [reddit_training] trains only inside its harvest loop. *)
Lemma reddit_training_trained w sub lim :
  trained (trace (Edward.reddit_training w sub lim)) = [] \/
  exists sub' lim',
    trained (trace (Edward.reddit_training w sub lim)) =
    trained (trace (Edward.harvest w (hot w sub' lim'))).
Proof.
  unfold Edward.reddit_training, Edward.chat_bot, LOG.
  rewrite bind_emit.
  destruct (Edward.get_reddit w) as [tr [r|e]] eqn:E.
  - right. eexists _, _.
    rewrite (bind_Ok (tr, Ok r) _ r eq_refl).
    cbv zeta. rewrite !bind_emit. simpl trace.
    change (trained (NewChatBot ?x :: ?l)) with (trained l).
    rewrite trained_app.
    assert (trained tr = []) as ->; [|reflexivity].
    revert E. unfold Edward.get_reddit, Edward.get_reddit_envars, LOG, sys_exit.
    destruct (environ w !! "REDDIT_CLIENT_ID"); [|discriminate].
    destruct (environ w !! "REDDIT_CLIENT_SECRET"); [|discriminate].
    destruct (environ w !! "REDDIT_USERNAME"); [|discriminate].
    destruct (environ w !! "REDDIT_PASSWORD"); [|discriminate].
    destruct (praw_Reddit w) as [r'|[]]; simpl; try (intros [= <- _]; reflexivity).
    destruct (PyStr.contains "429" msg); simpl; intros [= <- _]; reflexivity.
  - left. rewrite (bind_Raise (tr, Raise e) _ e eq_refl). simpl trace. change (trained (NewChatBot ?x :: ?l)) with (trained l).
    revert E. unfold Edward.get_reddit, Edward.get_reddit_envars, LOG, sys_exit.
    destruct (environ w !! "REDDIT_CLIENT_ID"); [|by intros [= <- _]].
    destruct (environ w !! "REDDIT_CLIENT_SECRET"); [|by intros [= <- _]].
    destruct (environ w !! "REDDIT_USERNAME"); [|by intros [= <- _]].
    destruct (environ w !! "REDDIT_PASSWORD"); [|by intros [= <- _]].
    destruct (praw_Reddit w) as [r'|[]]; simpl; try (intros [= <- _]; reflexivity).
    destruct (PyStr.contains "429" msg); simpl; intros [= <- _]; reflexivity.
Qed.

Lemma reddit_training_emitted w sub lim s :
  In s (trained (trace (Edward.reddit_training w sub lim))) ->
  exists sub' lim' submission comment,
    In submission (hot w sub' lim') /\
    In comment (reachable_comments submission) /\
    s = sequence_of comment /\ long_enough s.
Proof.
  destruct (reddit_training_trained w sub lim) as [->|(sub' & lim' & ->)]; [done|].
  intros (submission & comment & H)%harvest_emitted.
  by exists sub', lim', submission, comment.
Qed.

(** ** Worked runs *)

Example hi_comment_sequence :
  trained (trace (Edward.comment_body (calm_world []) hi_comment)) =
  [["hi"; "hello there"; "aww"; "up"; "ok"]].
Proof. vm_compute. reflexivity. Qed.

Example hi_comment_training :
  trained (trace (Edward.main_reddit (calm_world [thread "t1" [hi_comment; leaf "x"]]))) =
  [["hi"; "hello there"; "aww"; "up"; "ok"]].
Proof. vm_compute. reflexivity. Qed.

(** ** Reply filtering *)

(** C1, as the code has it: a direct reply, once cleaned, is appended to
    the comment's sequence exactly when it is shorter than 80 characters and
    is not ['[removed]']; the loop therefore builds the comment text followed
    by the replies that pass, and no element after the first of a sequence
    handed to the sink is 80 characters or longer or equal to ['[removed]'].
    The first element is the comment's own text, which is not filtered. *)
Theorem reply_appended_iff_short_and_not_removed
    (w : World) (comment rep : Praw.Comment) (sub_comments : list string) :
  let reply := Edward.clean (Praw.body rep) in
  (exists sub_comments',
      outcome (Edward.reply_step sub_comments rep) = Ok sub_comments' /\
      (sub_comments' = sub_comments ++ [reply] <->
       (String.length reply < 80)%nat /\ reply <> "[removed]") /\
      (sub_comments' = sub_comments <->
       ~ ((String.length reply < 80)%nat /\ reply <> "[removed]"))) /\
  outcome (Edward.reply_loop (Praw.replies comment) ([] ++ [Praw.body comment])) =
    Ok (Praw.body comment ::
        filter (fun r => (String.length r < 80)%nat /\ r <> "[removed]")
               (map (fun rep => Edward.clean (Praw.body rep)) (Praw.replies comment))) /\
  (forall sub lim s,
      In s (trained (trace (Edward.reddit_training w sub lim))) ->
      Forall (fun r => (String.length r < 80)%nat /\ r <> "[removed]") (tail s)).
Proof.
  intros reply. split; [|split].
  - destruct (reply_step_spec sub_comments rep) as (tr & _ & E).
    rewrite E. fold reply. simpl outcome.
    assert (sub_comments ++ [reply] <> sub_comments) as Hne.
    { intros Heq. apply (f_equal length) in Heq. rewrite length_app in Heq.
      simpl in Heq. lia. }
    destruct (decide (passes_filter reply)) as [Hp|Hp]; eexists; (split; [reflexivity|]);
      unfold passes_filter in Hp; split; split; intros; try done; tauto.
  - destruct (reply_loop_sequence comment) as (tr & _ & E). by rewrite E.
  - intros sub lim s (_ & _ & _ & c & _ & _ & -> & _)%reddit_training_emitted.
    simpl. apply Forall_forall. intros r Hr. by apply list_elem_of_filter in Hr as [? _].
Qed.

(** C1 as stated fails: the flattened comment list holds every reply as a
    comment of its own.  A reply of 90 characters, and one that reads
    ['[removed]'], are both dropped from the sequence of the comment they
    answer, and each is trained on, uncleaned, as the first element of its
    own sequence once four of its replies are accepted. *)
Lemma dropped_reply_heads_its_own_sequence :
  let run := Edward.main_reddit (calm_world [thread "t1" flattened]) in
  Forall (fun c => Forall (fun r => In r flattened) (Praw.replies c)) flattened /\
  In long_reply (Praw.replies top_comment) /\
  In removed_comment (Praw.replies top_comment) /\
  (80 <= String.length (Edward.clean (Praw.body long_reply)))%nat /\
  Edward.clean (Praw.body removed_comment) = "[removed]" /\
  outcome run = Ok tt /\
  trained (trace run) =
    [[ninety_x; "a"; "b"; "c"; "d"]; ["[removed]"; "a"; "b"; "c"; "d"]] /\
  (exists s, In s (trained (trace run)) /\
             In (Edward.clean (Praw.body long_reply)) s) /\
  (exists s, In s (trained (trace run)) /\
             In (Edward.clean (Praw.body removed_comment)) s).
Proof.
  intros run.
  assert (trained (trace run) =
            [[ninety_x; "a"; "b"; "c"; "d"]; ["[removed]"; "a"; "b"; "c"; "d"]]) as Et
    by (vm_compute; reflexivity).
  split;
    [repeat first [apply List.Forall_nil | apply List.Forall_cons]; simpl; auto 10|].
  split; [simpl; auto|]. split; [simpl; auto|].
  split; [vm_compute; lia|]. split; [vm_compute; reflexivity|].
  split; [vm_compute; reflexivity|]. split; [exact Et|].
  rewrite Et. split.
  - exists [ninety_x; "a"; "b"; "c"; "d"]. split; [by left|]. left. vm_compute. reflexivity.
  - exists ["[removed]"; "a"; "b"; "c"; "d"]. split; [right; by left|].
    left. vm_compute. reflexivity.
Qed.

(** ** Minimum sequence length *)

(** C2: the sequence built for a comment (its text plus the accepted
    replies) is handed to the sink exactly when it has at least 5 elements;
    nothing shorter is ever trained on during a run. *)
Theorem sequence_emitted_iff_at_least_five (w : World) (comment : Praw.Comment) :
  length (sequence_of comment) =
    S (length (filter passes_filter (cleaned_replies comment))) /\
  (In (Train (sequence_of comment)) (trace (Edward.comment_body w comment)) <->
   (5 <= length (sequence_of comment))%nat) /\
  trained (trace (Edward.comment_body w comment)) =
    (if decide (5 <= length (sequence_of comment))%nat
     then [sequence_of comment] else []) /\
  (forall sub lim s,
      In s (trained (trace (Edward.reddit_training w sub lim))) ->
      (5 <= length s)%nat).
Proof.
  split; [reflexivity|]. split; [|split].
  - assert (In (Train (sequence_of comment)) (trace (Edward.comment_body w comment))
            <-> In (sequence_of comment)
                   (trained (trace (Edward.comment_body w comment)))) as ->.
    { unfold trained. rewrite <- !list_elem_of_In, list_elem_of_omap. split.
      - intros H. by exists (Train (sequence_of comment)).
      - intros ([] & H & [= ->]). done. }
    rewrite comment_body_trained. unfold long_enough.
    destruct (decide _) as [Hl|Hl];
      [split; [done|intros _; by left] | split; [intros []|done]].
  - apply comment_body_trained.
  - intros sub lim s (_ & _ & _ & _ & _ & _ & _ & H)%reddit_training_emitted. exact H.
Qed.

(** ** Shape of the emitted sequences *)

Lemma reachable_comments_inv submission comment :
  In comment (reachable_comments submission) ->
  exists a cs, Praw.author submission = Some a /\
               Praw.comments submission = Ok cs /\ In comment cs.
Proof.
  unfold reachable_comments.
  destruct (Praw.author submission) as [a|]; [|done].
  destruct (Praw.link_karma a); [|done].
  destruct (Praw.comments submission) as [cs|]; [|done].
  intros H. by exists a, cs.
Qed.

(** C8: every sequence handed to the sink starts with the text of the
    comment it was built from and continues with the cleaned direct replies
    that passed the filter, in source order; a comment yields at most one
    sequence, the sequences of a submission follow the order of its comment
    list, and a sequence shorter than the minimum is never handed over. *)
Theorem emitted_sequence_shape (w : World) (sub : option string) (lim : option Z) :
  (forall s,
      In s (trained (trace (Edward.reddit_training w sub lim))) ->
      exists sub' lim' submission a cs comment,
        In submission (hot w sub' lim') /\
        Praw.author submission = Some a /\
        Praw.comments submission = Ok cs /\ In comment cs /\
        head s = Some (Praw.body comment) /\
        tail s = filter passes_filter (cleaned_replies comment) /\
        tail s `sublist_of` cleaned_replies comment /\
        Forall passes_filter (tail s) /\
        (5 <= length s)%nat) /\
  (forall comment,
      (length (trained (trace (Edward.comment_body w comment))) <= 1)%nat) /\
  (forall submission, exists n,
      trained (trace (Edward.submission_step w submission)) =
      filter long_enough (map sequence_of (take n (reachable_comments submission)))).
Proof.
  split; [|split].
  - intros s (sub' & lim' & submission & comment & Hs & Hc & -> & Hl)%reddit_training_emitted.
    apply reachable_comments_inv in Hc as (a & cs & Ha & Hcs & Hc).
    exists sub', lim', submission, a, cs, comment.
    repeat split; try done.
    + apply sublist_filter.
    + apply Forall_forall. intros r Hr. by apply list_elem_of_filter in Hr as [? _].
  - intros comment. rewrite comment_body_trained. destruct (decide _); simpl; lia.
  - intros submission. destruct (submission_step_spec w submission) as (n & _ & E & _).
    by exists n.
Qed.

(** ** The head comment is not filtered *)

(** C9: the length bound and the ['[removed]'] test are applied to replies
    only.  Whatever the text of a comment is, as soon as four of its replies
    are accepted the sink receives that text, unchanged, followed by the
    accepted replies. *)
Theorem head_comment_never_filtered (w : World) (comment : Praw.Comment) :
  (4 <= length (filter passes_filter (cleaned_replies comment)))%nat ->
  trained (trace (Edward.comment_body w comment)) =
  [Praw.body comment :: filter passes_filter (cleaned_replies comment)].
Proof.
  intros H. rewrite comment_body_trained.
  destruct (decide (long_enough (sequence_of comment))) as [|Hn]; [done|].
  exfalso. apply Hn. unfold long_enough, sequence_of. simpl. lia.
Qed.

Lemma head_comment_never_filtered_witness :
  trained (trace (Edward.comment_body (calm_world []) removed_comment)) =
  [["[removed]"; "a"; "b"; "c"; "d"]].
Proof.
  apply (head_comment_never_filtered (calm_world []) removed_comment).
  vm_compute. lia.
Defined.

Example deleted_head_is_trained :
  trained (trace (Edward.comment_body (calm_world [])
     (Praw.mkComment "[deleted]" [leaf "a"; leaf "b"; leaf "c"; leaf "d"]))) =
  [["[deleted]"; "a"; "b"; "c"; "d"]].
Proof. vm_compute. reflexivity. Qed.

Example long_head_is_trained :
  trained (trace (Edward.comment_body (calm_world [])
     (Praw.mkComment ninety_x [leaf "a"; leaf "b"; leaf "c"; leaf "d"]))) =
  [[ninety_x; "a"; "b"; "c"; "d"]].
Proof. vm_compute. reflexivity. Qed.

Example slashes_kept_in_head :
  trained (trace (Edward.comment_body (calm_world [])
     (Praw.mkComment "/r/aww" [leaf "a"; leaf "b"; leaf "c"; leaf "d"]))) =
  [["/r/aww"; "a"; "b"; "c"; "d"]].
Proof. vm_compute. reflexivity. Qed.

(** ** Exceptions raised while a submission is processed *)

Lemma for_each_app {A} (f : A -> M unit) l1 l2 :
  outcome (for_each l1 f) = Ok tt ->
  for_each (l1 ++ l2) f =
  (trace (for_each l1 f) ++ trace (for_each l2 f), outcome (for_each l2 f)).
Proof.
  induction l1 as [|x l1 IH]; intros Hok.
  - simpl. by destruct (for_each l2 f).
  - rewrite <- app_comm_cons, !for_each_cons. rewrite for_each_cons in Hok.
    destruct (outcome (f x)) as [u|e]; [|discriminate Hok].
    simpl in Hok. rewrite (IH Hok). simpl. by rewrite app_assoc.
Qed.

Lemma try_except_caught {A} (m m' : M A) h exc :
  outcome m = Raise exc -> h exc = Some m' ->
  try_except m h = (trace m ++ trace m', outcome m').
Proof.
  destruct m as [tr r]. simpl. intros -> Hh. unfold try_except.
  rewrite Hh. by destruct m'.
Qed.

(** A step whose exception is caught by a clause that ends normally is
    followed by the rest of the loop. *)
Lemma for_each_resume {A} (f : A -> M unit) before x after tr :
  outcome (for_each before f) = Ok tt ->
  f x = (tr, Ok tt) ->
  for_each (before ++ x :: after) f =
  (trace (for_each before f) ++ tr ++ trace (for_each after f),
   outcome (for_each after f)).
Proof.
  intros Hb Hx. rewrite (for_each_app _ _ _ Hb), for_each_cons, Hx. reflexivity.
Qed.

(** C5: an [AssertionError] whose message contains [429], raised while a
    submission is processed, is caught: two warnings are logged, the run
    sleeps for 60 and goes on with the next submission.  What earlier
    submissions produced stays as it was, the rest of the current submission
    is not processed, and the run ends as the remaining submissions make it
    end. *)
Theorem rate_limit_sleeps_60_then_next_thread
    (w : World) (before after : list Praw.Submission)
    (submission : Praw.Submission) (msg : string) :
  outcome (Edward.harvest w before) = Ok tt ->
  outcome (Edward.submission_body w submission) = Raise (AssertionError msg) ->
  PyStr.contains "429" msg = true ->
  Edward.harvest w (before ++ submission :: after) =
    (trace (Edward.harvest w before) ++
     (trace (Edward.submission_body w submission) ++
      [Log WARNING "Exceeding rate limits: %s" [AExn (AssertionError msg)];
       Log WARNING "sleeping for 60 seconds" [];
       Sleep 60]) ++
     trace (Edward.harvest w after),
     outcome (Edward.harvest w after)) /\
  trained (trace (Edward.harvest w (before ++ submission :: after))) =
    trained (trace (Edward.harvest w before)) ++
    trained (trace (Edward.submission_body w submission)) ++
    trained (trace (Edward.harvest w after)).
Proof.
  intros Hb Hraise H429.
  assert (Edward.harvest w (before ++ submission :: after) =
          (trace (Edward.harvest w before) ++
           (trace (Edward.submission_body w submission) ++
            [Log WARNING "Exceeding rate limits: %s" [AExn (AssertionError msg)];
             Log WARNING "sleeping for 60 seconds" [];
             Sleep 60]) ++
           trace (Edward.harvest w after),
           outcome (Edward.harvest w after))) as E.
  { unfold Edward.harvest. apply for_each_resume; [exact Hb|].
    unfold Edward.submission_step.
    erewrite try_except_caught; [|exact Hraise|simpl; rewrite H429; reflexivity].
    reflexivity. }
  split; [exact E|]. rewrite E. simpl trace.
  rewrite !trained_app. simpl. by rewrite app_nil_r.
Qed.

Lemma rate_limit_sleeps_60_then_next_thread_witness :
  let w := picky_world (AssertionError "received 429 HTTP response") three_threads in
  trained (trace (Edward.harvest w three_threads)) =
    [["hi"; "hello there"; "aww"; "up"; "ok"];
     ["boom"; "a"; "b"; "c"; "d"];
     ["[removed]"; "a"; "b"; "c"; "d"]] /\
  pauses 60 (trace (Edward.harvest w three_threads)) = 1%nat /\
  outcome (Edward.harvest w three_threads) = Ok tt.
Proof.
  intros w.
  destruct (rate_limit_sleeps_60_then_next_thread w
              [thread "t1" [hi_comment]] [thread "t3" [removed_comment]]
              (thread "t2" [boom_comment; hi_comment])
              "received 429 HTTP response") as [E Et];
    [vm_compute; reflexivity ..|].
  change ([thread "t1" [hi_comment]] ++
          thread "t2" [boom_comment; hi_comment] :: [thread "t3" [removed_comment]])
    with three_threads in E, Et.
  split; [|split].
  - rewrite Et. vm_compute. reflexivity.
  - rewrite E. vm_compute. reflexivity.
  - rewrite E. vm_compute. reflexivity.
Defined.

(** C6, as the code has it: an exception of the classes the clauses name,
    [praw.exceptions.APIException], [ClientException] or [PRAWException],
    raised while a submission is processed is caught by its clause, which
    logs one error record.  The rest of that submission is not processed and
    it is not tried again; the run goes on with the next submission and ends
    as the remaining submissions make it end.  No clause catches an
    exception of another class, [AssertionError] apart. *)
Theorem praw_error_logged_then_next_thread
    (w : World) (before after : list Praw.Submission)
    (submission : Praw.Submission) (exc : Exn) (fmt : string) :
  outcome (Edward.harvest w before) = Ok tt ->
  outcome (Edward.submission_body w submission) = Raise exc ->
  praw_clause exc = Some fmt ->
  Edward.submission_step w submission =
    (trace (Edward.submission_body w submission) ++ [Log ERROR fmt [AExn exc]],
     Ok tt) /\
  Edward.harvest w (before ++ submission :: after) =
    (trace (Edward.harvest w before) ++
     (trace (Edward.submission_body w submission) ++ [Log ERROR fmt [AExn exc]]) ++
     trace (Edward.harvest w after),
     outcome (Edward.harvest w after)) /\
  (forall other,
      praw_clause other = None ->
      (forall msg, other <> AssertionError msg) ->
      Edward.handler other = None).
Proof.
  intros Hb Hraise Hfmt.
  assert (Edward.submission_step w submission =
          (trace (Edward.submission_body w submission) ++ [Log ERROR fmt [AExn exc]],
           Ok tt)) as E.
  { unfold Edward.submission_step.
    destruct exc; try discriminate Hfmt; injection Hfmt as <-;
      by erewrite try_except_caught; [|exact Hraise|reflexivity]. }
  split; [exact E|]. split.
  - unfold Edward.harvest. by apply for_each_resume.
  - intros other Hother Hassert.
    destruct other; try discriminate Hother; try reflexivity.
    by destruct (Hassert msg).
Qed.

Lemma praw_error_logged_then_next_thread_witness :
  let w := picky_world (APIException "RATELIMIT") three_threads in
  trained (trace (Edward.harvest w three_threads)) =
    [["hi"; "hello there"; "aww"; "up"; "ok"];
     ["boom"; "a"; "b"; "c"; "d"];
     ["[removed]"; "a"; "b"; "c"; "d"]] /\
  logged [ERROR] (trace (Edward.harvest w three_threads)) =
    [Log ERROR "APIException: %s" [AExn (APIException "RATELIMIT")]] /\
  outcome (Edward.harvest w three_threads) = Ok tt.
Proof.
  intros w.
  destruct (praw_error_logged_then_next_thread w
              [thread "t1" [hi_comment]] [thread "t3" [removed_comment]]
              (thread "t2" [boom_comment; hi_comment])
              (APIException "RATELIMIT") "APIException: %s") as (_ & E & _);
    [vm_compute; reflexivity ..|].
  change ([thread "t1" [hi_comment]] ++
          thread "t2" [boom_comment; hi_comment] :: [thread "t3" [removed_comment]])
    with three_threads in E.
  rewrite E. vm_compute. repeat split; reflexivity.
Defined.

(** C6 as stated fails for the errors praw does not raise as one of its own
    three classes: an authentication failure comes as a prawcore exception,
    which no clause catches.  Raised while the second of three submissions
    is processed, it ends the run; the third is never processed. *)
Lemma authentication_error_ends_the_run :
  let submissions :=
    [thread "t1" [hi_comment]; refused_thread oauth_error;
     Praw.mkSubmission "title" 1 "t3" "http://example.org" (Some alice)
                       (Ok [removed_comment])] in
  let run := Edward.harvest (calm_world submissions) submissions in
  outcome (Edward.submission_body (calm_world submissions)
             (refused_thread oauth_error)) = Raise oauth_error /\
  Edward.handler oauth_error = None /\
  outcome run = Raise oauth_error /\
  trained (trace run) = [["hi"; "hello there"; "aww"; "up"; "ok"]] /\
  logged [WARNING; ERROR] (trace run) = [] /\
  ~ In (FetchComments "t3") (trace run).
Proof.
  intros submissions run. vm_compute.
  repeat split; try reflexivity.
  intros H. repeat (destruct H as [H|H]; [discriminate H|]). destruct H.
Qed.

(** C10: an [AssertionError] whose message does not contain [429] is caught
    by a clause that does nothing: no record is logged, there is no sleep,
    the step ends normally with exactly the events of the [try] body up to
    the failure, and the loop goes on with the next submission.  The same
    holds in both scripts. *)
Theorem other_assertion_error_absorbed
    (w : World) (submission : Praw.Submission) (rest : list Praw.Submission)
    (msg : string) :
  PyStr.contains "429" msg = false ->
  (Edward.handler (AssertionError msg) = Some ([], Ok tt) /\
   (outcome (Edward.submission_body w submission) = Raise (AssertionError msg) ->
    Edward.submission_step w submission =
      (trace (Edward.submission_body w submission), Ok tt) /\
    Edward.harvest w (submission :: rest) =
      (trace (Edward.submission_body w submission) ++ trace (Edward.harvest w rest),
       outcome (Edward.harvest w rest)))) /\
  (Bot.handler (AssertionError msg) = Some ([], Ok tt) /\
   (outcome (Bot.submission_body w submission) = Raise (AssertionError msg) ->
    Bot.submission_step w submission =
      (Sleep Bot.slp :: trace (Bot.submission_body w submission), Ok tt) /\
    Bot.harvest w (submission :: rest) =
      (Sleep Bot.slp :: trace (Bot.submission_body w submission) ++
         trace (Bot.harvest w rest),
       outcome (Bot.harvest w rest)))).
Proof.
  intros H429.
  assert (Edward.handler (AssertionError msg) = Some ([], Ok tt)) as Hhe
    by (simpl; by rewrite H429).
  assert (Bot.handler (AssertionError msg) = Some ([], Ok tt)) as Hhb
    by (simpl; by rewrite H429).
  split; (split; [done|]).
  - intros He.
    assert (Edward.submission_step w submission =
              (trace (Edward.submission_body w submission), Ok tt)) as Ee.
    { unfold Edward.submission_step.
      rewrite (try_except_caught _ _ _ _ He Hhe). simpl. by rewrite app_nil_r. }
    split; [done|]. unfold Edward.harvest. by rewrite for_each_cons, Ee.
  - intros Hb.
    assert (Bot.submission_step w submission =
              (Sleep Bot.slp :: trace (Bot.submission_body w submission), Ok tt)) as Eb.
    { unfold Bot.submission_step, sleep. rewrite bind_emit.
      rewrite (try_except_caught _ _ _ _ Hb Hhb). simpl. by rewrite app_nil_r. }
    split; [done|]. unfold Bot.harvest. by rewrite for_each_cons, Eb.
Qed.

Lemma other_assertion_error_absorbed_witness :
  let w := picky_world (AssertionError "connection reset") three_threads in
  let t2 := thread "t2" [boom_comment; hi_comment] in
  logged [WARNING; ERROR] (trace (Edward.submission_step w t2)) = [] /\
  pauses 60 (trace (Edward.submission_step w t2)) = 0%nat /\
  outcome (Edward.harvest w [t2; thread "t3" [removed_comment]]) = Ok tt /\
  logged [WARNING; ERROR] (trace (Bot.submission_step w t2)) = [] /\
  pauses 60 (trace (Bot.submission_step w t2)) = 0%nat /\
  outcome (Bot.harvest w [t2; thread "t3" [removed_comment]]) = Ok tt.
Proof.
  intros w t2.
  destruct (other_assertion_error_absorbed w t2 [thread "t3" [removed_comment]]
              "connection reset") as [[_ He] [_ Hb]];
    [vm_compute; reflexivity|].
  destruct He as [Ee Ehe]; [vm_compute; reflexivity|].
  destruct Hb as [Eb Ehb]; [vm_compute; reflexivity|].
  rewrite Ee, Ehe, Eb, Ehb. vm_compute. repeat split; reflexivity.
Defined.

(** ** Deleted submissions *)

(** C3: for a submission without author, [edward.py] logs the four header
    records and moves on: nothing is trained, nothing is raised, and the
    loop continues.  [bot.py] has no such guard: reading
    [submission.author.link_karma] raises [AttributeError], which no clause
    catches, so the whole run ends there. *)
Theorem deleted_thread_edward_skips_bot_raises
    (w : World) (submission : Praw.Submission) (rest : list Praw.Submission) :
  Praw.author submission = None ->
  (Edward.submission_step w submission = (header submission, Ok tt) /\
   trained (trace (Edward.submission_step w submission)) = [] /\
   Edward.harvest w (submission :: rest) =
     (header submission ++ trace (Edward.harvest w rest),
      outcome (Edward.harvest w rest))) /\
  (Bot.submission_step w submission =
     (Sleep Bot.slp :: bot_header submission,
      Raise (AttributeError "'NoneType' object has no attribute 'link_karma'")) /\
   Bot.harvest w (submission :: rest) =
     (Sleep Bot.slp :: bot_header submission,
      Raise (AttributeError "'NoneType' object has no attribute 'link_karma'"))).
Proof.
  intros Hauthor.
  assert (Edward.submission_step w submission = (header submission, Ok tt)) as Ee.
  { unfold Edward.submission_step. by rewrite submission_body_deleted. }
  assert (Bot.submission_step w submission =
            (Sleep Bot.slp :: bot_header submission,
             Raise (AttributeError "'NoneType' object has no attribute 'link_karma'")))
    as Eb.
  { unfold Bot.submission_step, Bot.submission_body, Bot.author_link_karma,
      bot_header, LOG, sleep.
    rewrite Hauthor. reflexivity. }
  repeat split; try done.
  - by rewrite Ee.
  - unfold Edward.harvest. by rewrite for_each_cons, Ee.
  - unfold Bot.harvest. by rewrite for_each_cons, Eb.
Qed.

Lemma deleted_thread_edward_skips_bot_raises_witness :
  let w := calm_world [deleted_thread; thread "t1" [hi_comment]] in
  trained (trace (Edward.main_reddit w)) = [["hi"; "hello there"; "aww"; "up"; "ok"]] /\
  outcome (Edward.main_reddit w) = Ok tt /\
  trained (trace (Bot.reddit_training w)) = [] /\
  outcome (Bot.reddit_training w) =
    Raise (AttributeError "'NoneType' object has no attribute 'link_karma'").
Proof.
  intros w.
  destruct (deleted_thread_edward_skips_bot_raises w deleted_thread
              [thread "t1" [hi_comment]]) as [(_ & _ & Ee) (_ & Eb)];
    [reflexivity|].
  assert (Edward.main_reddit w =
          (NewChatBot "Default Bot" ::
           trace (Edward.get_reddit w) ++
           [Log INFO "Read only?: %s" [ABool true]; HotListing "all" 99] ++
           trace (Edward.harvest w [deleted_thread; thread "t1" [hi_comment]]),
           outcome (Edward.harvest w [deleted_thread; thread "t1" [hi_comment]]))) as ->.
  { vm_compute. reflexivity. }
  assert (Bot.reddit_training w =
          (NewChatBot "Useless Bot" ::
           trace (Bot.get_reddit w) ++
           [Log INFO "Read only?: %s" [ABool false]; HotListing "all" 9] ++
           trace (Bot.harvest w [deleted_thread; thread "t1" [hi_comment]]),
           outcome (Bot.harvest w [deleted_thread; thread "t1" [hi_comment]]))) as ->.
  { vm_compute. reflexivity. }
  rewrite Ee, Eb. vm_compute. repeat split; reflexivity.
Defined.

(** ** Pauses *)

Lemma sleepless_pauses d tr : sleepless tr -> pauses d tr = 0%nat.
Proof.
  induction 1 as [|ev tr Hev _ IH]; [done|]. by destruct ev.
Qed.

Lemma sleepless_concat_map {A} (g : A -> list Event) l :
  (forall x, sleepless (g x)) -> sleepless (concat (map g l)).
Proof.
  intros Hg. induction l as [|x l IH]; [constructor|].
  simpl. apply Forall_app_2; [apply Hg|exact IH].
Qed.

Lemma bot_comment_body_sleepless w comment :
  sleepless (trace (Bot.comment_body w comment)).
Proof.
  unfold Bot.comment_body, bot_train, LOG, lift.
  destruct (train w (Bot.get_sub_comments comment)) as [[]|e]; repeat constructor.
Qed.

Lemma bot_submission_body_sleepless w submission :
  sleepless (trace (Bot.submission_body w submission)).
Proof.
  unfold Bot.submission_body, Bot.author_link_karma, LOG.
  destruct (Praw.author submission) as [a|]; [|repeat constructor].
  destruct (Praw.link_karma a) as [k|e]; [|repeat constructor].
  destruct (Praw.comments submission) as [cs|e]; [|repeat constructor].
  destruct (for_each_prefix (Bot.comment_body w) cs) as (n & _ & Htr & _).
  pose proof (sleepless_concat_map (fun c => trace (Bot.comment_body w c)) (take n cs)
                (bot_comment_body_sleepless w)) as Hs.
  rewrite <- Htr in Hs.
  simpl. destruct (for_each cs (Bot.comment_body w)) as [tr [[]|e]]; simpl in *;
    repeat (apply Forall_cons; split; [done|]);
    try (apply Forall_app_2; [done|repeat constructor]); done.
Qed.

Lemma bot_submission_step_pauses w submission :
  pauses Bot.slp (trace (Bot.submission_step w submission)) = 1%nat.
Proof.
  unfold Bot.submission_step, sleep. rewrite bind_emit. simpl trace.
  change (pauses ?d (Sleep ?d :: ?l)) with (S (pauses d l)).
  rewrite try_except_trace, pauses_app.
  rewrite (sleepless_pauses _ _ (bot_submission_body_sleepless w submission)).
  destruct (outcome (Bot.submission_body w submission)) as [|exc]; [done|].
  destruct exc; try done. simpl.
  by destruct (PyStr.contains "429" msg).
Qed.

Lemma harvest_pauses w (submissions : list Praw.Submission) :
  (forall s, train w s = Ok tt) ->
  exists k, (k <= length submissions)%nat /\
    pauses Edward.slp (trace (Edward.harvest w submissions)) =
    length (concat (map reachable_comments (take k submissions))).
Proof.
  intros Hcalm.
  destruct (for_each_prefix (Edward.submission_step w) submissions)
    as (k & Hk & Htr & _).
  exists k. split; [done|]. unfold Edward.harvest. rewrite Htr. clear Htr.
  induction (take k submissions) as [|submission l IH]; [done|].
  simpl. rewrite pauses_app, length_app, IH. f_equal.
  destruct (submission_step_spec w submission) as (n & _ & _ & -> & Hn).
  by apply Hn.
Qed.

Lemma bot_harvest_pauses w (submissions : list Praw.Submission) :
  exists k, (k <= length submissions)%nat /\
    trace (Bot.harvest w submissions) =
      concat (map (fun s => trace (Bot.submission_step w s)) (take k submissions)) /\
    pauses Bot.slp (trace (Bot.harvest w submissions)) = k.
Proof.
  destruct (for_each_prefix (Bot.submission_step w) submissions)
    as (k & Hk & Htr & _).
  exists k. unfold Bot.harvest. rewrite Htr. repeat split; [done|].
  rewrite pauses_concat_map by apply bot_submission_step_pauses.
  rewrite length_take. lia.
Qed.

(** C4, as the code has it: [edward.py] sleeps for [slp] once per comment
    of the flattened list, before that comment's replies are read, and
    [bot.py] sleeps for its [slp] once per submission.  With a sink that
    does not raise, the pauses of a submission in [edward.py] are as many as
    its comments, whatever the number of replies. *)
Theorem one_pause_per_comment
    (w : World) (submission : Praw.Submission) (submissions : list Praw.Submission) :
  (forall s, train w s = Ok tt) ->
  (forall comment,
      pauses Edward.slp (trace (Edward.comment_body w comment)) = 1%nat) /\
  pauses Edward.slp (trace (Edward.submission_step w submission)) =
    length (reachable_comments submission) /\
  (exists k, (k <= length submissions)%nat /\
     pauses Edward.slp (trace (Edward.harvest w submissions)) =
     length (concat (map reachable_comments (take k submissions)))) /\
  pauses Bot.slp (trace (Bot.submission_step w submission)) = 1%nat /\
  (exists k, (k <= length submissions)%nat /\
     trace (Bot.harvest w submissions) =
       concat (map (fun s => trace (Bot.submission_step w s)) (take k submissions)) /\
     pauses Bot.slp (trace (Bot.harvest w submissions)) = k).
Proof.
  intros Hcalm. split; [|split; [|split; [|split]]].
  - intros comment. apply comment_body_pauses.
  - destruct (submission_step_spec w submission) as (n & _ & _ & -> & Hn).
    by apply Hn.
  - by apply harvest_pauses.
  - apply bot_submission_step_pauses.
  - apply bot_harvest_pauses.
Qed.

Lemma one_pause_per_comment_witness :
  let t := thread "t1" [hi_comment; leaf "x"] in
  pauses Edward.slp (trace (Edward.submission_step (calm_world []) t)) = 2%nat /\
  pauses Bot.slp (trace (Bot.submission_step (calm_world []) t)) = 1%nat.
Proof.
  intros t.
  destruct (one_pause_per_comment (calm_world []) t [])
    as (_ & E & _ & B & _); [reflexivity|].
  split; [exact E|exact B].
Defined.

(** C4 as stated fails: a submission with two comments and six direct
    replies costs two pauses in [edward.py] and one in [bot.py]. *)
Lemma pause_per_reply_counterexample :
  let w := calm_world [] in
  let t := thread "t1" [hi_comment; leaf "x"] in
  direct_replies t = 6%nat /\
  outcome (Edward.submission_step w t) = Ok tt /\
  pauses Edward.slp (trace (Edward.submission_step w t)) = 2%nat /\
  pauses Edward.slp (trace (Edward.submission_step w t)) <> direct_replies t /\
  outcome (Bot.submission_step w t) = Ok tt /\
  pauses Bot.slp (trace (Bot.submission_step w t)) = 1%nat /\
  pauses Bot.slp (trace (Bot.submission_step w t)) <> direct_replies t.
Proof. vm_compute. repeat split; try reflexivity; intros H; discriminate H. Qed.

(** ** Credentials *)



Example all_credentials_reach_the_source :
  source_calls (trace (Edward.main_reddit (calm_world [thread "t1" [hi_comment]]))) =
  [NewReddit "id" "secret" "user" "pass"; HotListing "all" 99;
   FetchRedditor "alice"; FetchComments "t1"].
Proof. vm_compute. reflexivity. Qed.

(** ** Stripping *)

Lemma string_app_cons c (s1 s2 : string) :
  String c s1 +:+ s2 = String c (s1 +:+ s2).
Proof. reflexivity. Qed.

Lemma string_app_assoc (s1 s2 s3 : string) :
  (s1 +:+ s2) +:+ s3 = s1 +:+ (s2 +:+ s3).
Proof.
  induction s1 as [|c s1 IH]; [done|]. by rewrite !string_app_cons, IH.
Qed.

Lemma string_app_length (s1 s2 : string) :
  String.length (s1 +:+ s2) = (String.length s1 + String.length s2)%nat.
Proof.
  induction s1 as [|c s1 IH]; [done|]. rewrite string_app_cons. simpl. by rewrite IH.
Qed.

Lemma all_in_app chars s1 s2 :
  PyStr.all_in chars (s1 +:+ s2) = PyStr.all_in chars s1 && PyStr.all_in chars s2.
Proof.
  induction s1 as [|c s1 IH]; [done|].
  rewrite string_app_cons. simpl. rewrite IH. by rewrite andb_assoc.
Qed.

Lemma all_in_mono chars chars' s :
  (forall c, PyStr.mem c chars = true -> PyStr.mem c chars' = true) ->
  PyStr.all_in chars s = true -> PyStr.all_in chars' s = true.
Proof.
  intros Hsub. induction s as [|c s IH]; [done|]. simpl.
  rewrite !andb_true_iff. intros [Hc Hs]. auto.
Qed.

(** [lstrip] removes a prefix made of characters of [chars]. *)
Lemma lstrip_split chars s :
  exists pre, s = pre +:+ PyStr.lstrip chars s /\ PyStr.all_in chars pre = true.
Proof.
  induction s as [|c s (pre & E & Hpre)]; [by exists ""|].
  simpl. destruct (PyStr.mem c chars) eqn:Hc.
  - exists (String c pre). rewrite string_app_cons. simpl. rewrite Hc, Hpre.
    split; [by rewrite <- E|done].
  - by exists "".
Qed.

(** [rstrip] removes a suffix made of characters of [chars]. *)
Lemma rstrip_split chars s :
  exists suf, s = PyStr.rstrip chars s +:+ suf /\ PyStr.all_in chars suf = true.
Proof.
  induction s as [|c s (suf & E & Hsuf)]; [by exists ""|].
  simpl. destruct (PyStr.rstrip chars s) as [|d r] eqn:Hr.
  - change ("" +:+ suf) with suf in E. subst suf.
    destruct (PyStr.mem c chars) eqn:Hc.
    + exists (String c s). simpl. by rewrite Hc, Hsuf.
    + by exists s.
  - exists suf. split; [|done]. rewrite string_app_cons. f_equal. exact E.
Qed.

Lemma lstrip_start chars s :
  PyStr.startswith_any chars (PyStr.lstrip chars s) = false.
Proof.
  induction s as [|c s IH]; [done|]. simpl.
  destruct (PyStr.mem c chars) eqn:Hc; [exact IH|]. simpl. exact Hc.
Qed.

Lemma rstrip_cons_kept chars c s :
  PyStr.mem c chars = false ->
  PyStr.rstrip chars (String c s) = String c (PyStr.rstrip chars s).
Proof. intros Hc. simpl. rewrite Hc. by destruct (PyStr.rstrip chars s). Qed.

Lemma rstrip_start chars s :
  PyStr.startswith_any chars s = false ->
  PyStr.startswith_any chars (PyStr.rstrip chars s) = false.
Proof.
  destruct s as [|c s]; [done|]. simpl PyStr.startswith_any at 1. intros Hc.
  rewrite rstrip_cons_kept by done. exact Hc.
Qed.

Lemma rstrip_end chars s :
  PyStr.endswith_any chars (PyStr.rstrip chars s) = false.
Proof.
  induction s as [|c s IH]; [done|]. simpl.
  destruct (PyStr.rstrip chars s) as [|d r] eqn:Hr.
  - destruct (PyStr.mem c chars) eqn:Hc; [done|]. simpl. exact Hc.
  - exact IH.
Qed.

Lemma lstrip_fixed chars s :
  PyStr.startswith_any chars s = false -> PyStr.lstrip chars s = s.
Proof. destruct s as [|c s]; [done|]. simpl. by intros ->. Qed.

Lemma rstrip_fixed chars s :
  PyStr.endswith_any chars s = false -> PyStr.rstrip chars s = s.
Proof.
  induction s as [|c s IH]; [done|]. simpl.
  destruct s as [|d s'].
  - by intros ->.
  - intros H. rewrite (IH H). reflexivity.
Qed.

Lemma strip_ends chars s :
  PyStr.startswith_any chars (PyStr.strip chars s) = false /\
  PyStr.endswith_any chars (PyStr.strip chars s) = false.
Proof.
  unfold PyStr.strip. split; [|apply rstrip_end].
  apply rstrip_start, lstrip_start.
Qed.

Lemma strip_fixed chars s :
  PyStr.startswith_any chars s = false ->
  PyStr.endswith_any chars s = false ->
  PyStr.strip chars s = s.
Proof.
  intros Hs He. unfold PyStr.strip. rewrite (lstrip_fixed _ _ Hs).
  by apply rstrip_fixed.
Qed.

Lemma strip_split chars s :
  exists pre suf,
    s = pre +:+ PyStr.strip chars s +:+ suf /\
    PyStr.all_in chars pre = true /\ PyStr.all_in chars suf = true.
Proof.
  destruct (lstrip_split chars s) as (pre & E1 & Hpre).
  destruct (rstrip_split chars (PyStr.lstrip chars s)) as (suf & E2 & Hsuf).
  exists pre, suf. unfold PyStr.strip. by rewrite <- E2, <- E1.
Qed.

Lemma slash_r_in_marker_chars c :
  PyStr.mem c "/r/" = true -> PyStr.mem c "/r^" = true.
Proof.
  simpl. destruct (Ascii.eqb c "/"); [done|]. destruct (Ascii.eqb c "r"); done.
Qed.

Lemma caret_in_marker_chars c :
  PyStr.mem c "^" = true -> PyStr.mem c "/r^" = true.
Proof.
  simpl. destruct (Ascii.eqb c "/"); [done|]. destruct (Ascii.eqb c "r"); [done|].
  by destruct (Ascii.eqb c "^").
Qed.

Lemma clean_split (text : string) :
  exists pre suf,
    text = pre +:+ Edward.clean text +:+ suf /\
    PyStr.all_in "/r^" pre = true /\
    PyStr.all_in "/r^" suf = true /\
    (String.length (Edward.clean text) <= String.length text)%nat.
Proof.
  unfold Edward.clean.
  destruct (strip_split "/r/" text) as (p1 & s1 & E1 & Hp1 & Hs1).
  destruct (strip_split "^" (PyStr.strip "/r/" text)) as (p2 & s2 & E2 & Hp2 & Hs2).
  set (u := PyStr.strip "^" (PyStr.strip "/r/" text)) in *.
  assert (text = (p1 +:+ p2) +:+ u +:+ (s2 +:+ s1)) as E.
  { rewrite E1 at 1. rewrite E2 at 1. by rewrite !string_app_assoc. }
  exists (p1 +:+ p2), (s2 +:+ s1). split; [exact E|].
  rewrite !all_in_app.
  rewrite (all_in_mono _ _ _ slash_r_in_marker_chars Hp1),
          (all_in_mono _ _ _ slash_r_in_marker_chars Hs1),
          (all_in_mono _ _ _ caret_in_marker_chars Hp2),
          (all_in_mono _ _ _ caret_in_marker_chars Hs2).
  repeat split.
  apply (f_equal String.length) in E. rewrite !string_app_length in E. lia.
Qed.

(** X1: cleaning a reply only removes characters at its two ends, and only
    the characters [/], [r] and [^]: the reply is the cleaned text between a
    prefix and a suffix made of those three characters, so cleaning never
    lengthens a text and never touches its middle. *)
Theorem clean_removes_only_end_marker_chars (text : string) :
  exists pre suf,
    text = pre +:+ Edward.clean text +:+ suf /\
    PyStr.all_in "/r^" pre = true /\
    PyStr.all_in "/r^" suf = true /\
    (String.length (Edward.clean text) <= String.length text)%nat.
Proof. apply clean_split. Qed.

Lemma startswith_any_mono chars chars' s :
  (forall c, PyStr.mem c chars = true -> PyStr.mem c chars' = true) ->
  PyStr.startswith_any chars' s = false -> PyStr.startswith_any chars s = false.
Proof.
  intros Hsub. destruct s as [|c s]; [done|]. simpl. intros H.
  destruct (PyStr.mem c chars) eqn:Hc; [|done]. apply Hsub in Hc. congruence.
Qed.

Lemma endswith_any_mono chars chars' s :
  (forall c, PyStr.mem c chars = true -> PyStr.mem c chars' = true) ->
  PyStr.endswith_any chars' s = false -> PyStr.endswith_any chars s = false.
Proof.
  intros Hsub. induction s as [|c s IH]; [done|]. simpl.
  destruct s as [|d s']; [|exact IH]. intros H.
  destruct (PyStr.mem c chars) eqn:Hc; [|done]. apply Hsub in Hc. congruence.
Qed.

(** X2: a cleaned reply never starts or ends with [^].  It may still start
    or end with [/] or [r], which were stripped first, so cleaning is not
    idempotent. *)
Theorem clean_has_no_caret_at_ends (text : string) :
  PyStr.startswith_any "^" (Edward.clean text) = false /\
  PyStr.endswith_any "^" (Edward.clean text) = false /\
  (exists other,
      PyStr.startswith_any "/r" (Edward.clean other) = true /\
      Edward.clean (Edward.clean other) <> Edward.clean other).
Proof.
  split; [|split].
  - apply strip_ends.
  - apply strip_ends.
  - exists "^/r/aww". vm_compute. split; [done|]. intros H. discriminate H.
Qed.

(** X3: a text that neither starts nor ends with [/], [r] or [^] is left
    as it is by the cleaning step. *)
Theorem clean_keeps_text_with_plain_ends (text : string) :
  PyStr.startswith_any "/r^" text = false ->
  PyStr.endswith_any "/r^" text = false ->
  Edward.clean text = text.
Proof.
  intros Hs He. unfold Edward.clean.
  rewrite (strip_fixed "/r/" text).
  - apply strip_fixed.
    + by apply (startswith_any_mono _ _ _ caret_in_marker_chars).
    + by apply (endswith_any_mono _ _ _ caret_in_marker_chars).
  - by apply (startswith_any_mono _ _ _ slash_r_in_marker_chars).
  - by apply (endswith_any_mono _ _ _ slash_r_in_marker_chars).
Qed.

Lemma clean_keeps_text_with_plain_ends_witness :
  Edward.clean "[removed]" = "[removed]".
Proof. apply clean_keeps_text_with_plain_ends; reflexivity. Defined.

(** X4: a reply whose raw text is shorter than 80 characters is never
    dropped for its length: unless its cleaned text is ['[removed]'], it is
    appended. *)
Theorem short_raw_reply_is_appended (sub_comments : list string) (rep : Praw.Comment) :
  (String.length (Praw.body rep) < 80)%nat ->
  Edward.clean (Praw.body rep) <> "[removed]" ->
  outcome (Edward.reply_step sub_comments rep) =
    Ok (sub_comments ++ [Edward.clean (Praw.body rep)]).
Proof.
  intros Hlen Hne.
  destruct (reply_step_spec sub_comments rep) as (tr & _ & ->). simpl.
  destruct (clean_split (Praw.body rep)) as (_ & _ & _ & _ & _ & Hle).
  destruct (decide (passes_filter _)) as [|Hn]; [done|].
  exfalso. apply Hn. split; [lia|done].
Qed.

Lemma short_raw_reply_is_appended_witness :
  outcome (Edward.reply_step ["hi"] (leaf "/r/aww")) = Ok ["hi"; "aww"].
Proof.
  apply (short_raw_reply_is_appended ["hi"] (leaf "/r/aww")).
  - vm_compute. lia.
  - vm_compute. intros H. discriminate H.
Defined.

(** ** The other credential loaders *)

Ltac by_lookups env :=
  repeat match goal with
         | |- context [env !! ?k] =>
             let E := fresh "E" in destruct (env !! k) eqn:E
         end;
  simpl; eauto 10.

(** X5: [get_reddit_envars] returns the four values in the order client id,
    client secret, user name, password, and logs nothing, when all four
    variables are set; otherwise it logs the [export] line of the first
    unset one and exits with status 1.  Both scripts agree. *)
Theorem get_reddit_envars_result (env : gmap string string) :
  match first_unset_in ["REDDIT_CLIENT_ID"; "REDDIT_CLIENT_SECRET";
                        "REDDIT_USERNAME"; "REDDIT_PASSWORD"] env with
  | Some var =>
      Edward.get_reddit_envars env =
      ([Log ERROR ("export " +:+ var +:+ "=''") []], Raise (SystemExit 1))
  | None =>
      exists client_id client_secret username password,
        env !! "REDDIT_CLIENT_ID" = Some client_id /\
        env !! "REDDIT_CLIENT_SECRET" = Some client_secret /\
        env !! "REDDIT_USERNAME" = Some username /\
        env !! "REDDIT_PASSWORD" = Some password /\
        Edward.get_reddit_envars env =
        ([], Ok (client_id, client_secret, username, password))
  end /\
  Bot.get_reddit_envars env = Edward.get_reddit_envars env.
Proof.
  split; [|reflexivity].
  unfold first_unset_in, Edward.get_reddit_envars, LOG, sys_exit. simpl.
  by_lookups env.
Qed.

(** X6: [get_twitter_envars] returns key, secret, token, token secret in
    that order, and logs nothing, when all four variables are set; otherwise
    it logs the [export] line of the first unset one and exits with status
    1.  Both scripts agree. *)
Theorem get_twitter_envars_result (env : gmap string string) :
  match first_unset_in ["TWITTER_KEY"; "TWITTER_SECRET";
                        "TWITTER_TOKEN"; "TWITTER_TOKEN_SECRET"] env with
  | Some var =>
      Edward.get_twitter_envars env =
      ([Log ERROR ("export " +:+ var +:+ "=''") []], Raise (SystemExit 1))
  | None =>
      exists twitter_key twitter_secret twitter_token twitter_token_secret,
        env !! "TWITTER_KEY" = Some twitter_key /\
        env !! "TWITTER_SECRET" = Some twitter_secret /\
        env !! "TWITTER_TOKEN" = Some twitter_token /\
        env !! "TWITTER_TOKEN_SECRET" = Some twitter_token_secret /\
        Edward.get_twitter_envars env =
        ([], Ok (twitter_key, twitter_secret, twitter_token, twitter_token_secret))
  end /\
  Bot.get_twitter_envars env = Edward.get_twitter_envars env.
Proof.
  split; [|reflexivity].
  unfold first_unset_in, Edward.get_twitter_envars, LOG, sys_exit. simpl.
  by_lookups env.
Qed.

(** X7: [get_hipchat_envars] returns host, room, access token in that
    order, and logs nothing, when all three variables are set; otherwise it
    logs the [export] line of the first unset one and exits with status 1.
    Both scripts agree. *)
Theorem get_hipchat_envars_result (env : gmap string string) :
  match first_unset_in ["HIPCHAT_HOST"; "HIPCHAT_ROOM"; "HIPCHAT_ACCESS_TOKEN"] env with
  | Some var =>
      Edward.get_hipchat_envars env =
      ([Log ERROR ("export " +:+ var +:+ "=''") []], Raise (SystemExit 1))
  | None =>
      exists hipchat_host hipchat_room hipchat_access_token,
        env !! "HIPCHAT_HOST" = Some hipchat_host /\
        env !! "HIPCHAT_ROOM" = Some hipchat_room /\
        env !! "HIPCHAT_ACCESS_TOKEN" = Some hipchat_access_token /\
        Edward.get_hipchat_envars env =
        ([], Ok (hipchat_host, hipchat_room, hipchat_access_token))
  end /\
  Bot.get_hipchat_envars env = Edward.get_hipchat_envars env.
Proof.
  split; [|reflexivity].
  unfold first_unset_in, Edward.get_hipchat_envars, LOG, sys_exit. simpl.
  by_lookups env.
Qed.

(** X8: [get_gitter_envars] returns room and api token in that order, and
    logs nothing, when both variables are set; otherwise it logs the
    [export] line of the first unset one and exits with status 1.  Both
    scripts agree. *)
Theorem get_gitter_envars_result (env : gmap string string) :
  match first_unset_in ["GITTER_ROOM"; "GITTER_API_TOKEN"] env with
  | Some var =>
      Edward.get_gitter_envars env =
      ([Log ERROR ("export " +:+ var +:+ "=''") []], Raise (SystemExit 1))
  | None =>
      exists gitter_room gitter_api_token,
        env !! "GITTER_ROOM" = Some gitter_room /\
        env !! "GITTER_API_TOKEN" = Some gitter_api_token /\
        Edward.get_gitter_envars env = ([], Ok (gitter_room, gitter_api_token))
  end /\
  Bot.get_gitter_envars env = Edward.get_gitter_envars env.
Proof.
  split; [|reflexivity].
  unfold first_unset_in, Edward.get_gitter_envars, LOG, sys_exit. simpl.
  by_lookups env.
Qed.

(** ** Building the praw client *)

(** X9: with all four variables set, [get_reddit] in both scripts writes
    the four credentials, password included, to the debug log, builds the
    client from them in the order client id, client secret, user name,
    password, and returns the client when praw does. *)
Theorem get_reddit_logs_credentials_then_builds_client
    (w : World) (client_id client_secret username password : string)
    (reddit : Praw.Reddit) :
  environ w !! "REDDIT_CLIENT_ID" = Some client_id ->
  environ w !! "REDDIT_CLIENT_SECRET" = Some client_secret ->
  environ w !! "REDDIT_USERNAME" = Some username ->
  environ w !! "REDDIT_PASSWORD" = Some password ->
  praw_Reddit w = Ok reddit ->
  Edward.get_reddit w =
    ([Log DEBUG "%s" [AStr client_id]; Log DEBUG "%s" [AStr client_secret];
      Log DEBUG "%s" [AStr username]; Log DEBUG "%s" [AStr password];
      NewReddit client_id client_secret username password],
     Ok reddit) /\
  Bot.get_reddit w = Edward.get_reddit w.
Proof.
  intros E1 E2 E3 E4 Ep.
  unfold Edward.get_reddit, Bot.get_reddit, Edward.get_reddit_envars,
    Bot.get_reddit_envars, LOG, sys_exit.
  rewrite E1, E2, E3, E4, Ep. split; reflexivity.
Qed.

Lemma get_reddit_logs_credentials_then_builds_client_witness :
  Edward.get_reddit (calm_world []) =
    ([Log DEBUG "%s" [AStr "id"]; Log DEBUG "%s" [AStr "secret"];
      Log DEBUG "%s" [AStr "user"]; Log DEBUG "%s" [AStr "pass"];
      NewReddit "id" "secret" "user" "pass"],
     Ok (Praw.mkReddit false)).
Proof.
  apply (get_reddit_logs_credentials_then_builds_client
           (calm_world []) "id" "secret" "user" "pass" (Praw.mkReddit false));
    vm_compute; reflexivity.
Defined.

(** X10: when [praw.Reddit(...)] raises an [AssertionError], [get_reddit]
    of [edward.py] catches it but has no client to return: it ends with
    [UnboundLocalError], after two warnings and a sleep of 10 when the
    message contains [429] and silently otherwise, and [reddit_training]
    ends with it before the listing is requested.  [get_reddit] of [bot.py]
    has no [try] and lets the [AssertionError] through. *)
Theorem get_reddit_assertion_error_leaves_no_client
    (w : World) (sub : option string) (lim : option Z) (msg : string) :
  first_unset (environ w) = None ->
  praw_Reddit w = Raise (AssertionError msg) ->
  (exists m, outcome (Edward.get_reddit w) = Raise (UnboundLocalError m)) /\
  pauses 10 (trace (Edward.get_reddit w)) =
    (if PyStr.contains "429" msg then 1 else 0)%nat /\
  logged [WARNING] (trace (Edward.get_reddit w)) =
    (if PyStr.contains "429" msg
     then [Log WARNING "Exceeding rate limits: %s" [AExn (AssertionError msg)];
           Log WARNING "sleeping for 10 seconds" []]
     else []) /\
  (exists m, outcome (Edward.reddit_training w sub lim) = Raise (UnboundLocalError m)) /\
  (forall s n, ~ In (HotListing s n) (trace (Edward.reddit_training w sub lim))) /\
  outcome (Bot.get_reddit w) = Raise (AssertionError msg) /\
  pauses 10 (trace (Bot.get_reddit w)) = 0%nat.
Proof.
  intros Henv Hp.
  unfold first_unset, reddit_variables in Henv. simpl in Henv.
  unfold Edward.reddit_training, Edward.chat_bot, Edward.get_reddit, Bot.get_reddit,
    Edward.get_reddit_envars, Bot.get_reddit_envars, LOG, sys_exit.
  destruct (environ w !! "REDDIT_CLIENT_ID"); [|discriminate].
  destruct (environ w !! "REDDIT_CLIENT_SECRET"); [|discriminate].
  destruct (environ w !! "REDDIT_USERNAME"); [|discriminate].
  destruct (environ w !! "REDDIT_PASSWORD"); [|discriminate].
  rewrite Hp. simpl.
  destruct (PyStr.contains "429" msg); simpl;
    repeat split; eauto; intros s' n' H; repeat (destruct H as [H|H]; [discriminate H|]);
    destruct H.
Qed.

Lemma get_reddit_assertion_error_leaves_no_client_witness :
  outcome (Edward.main_reddit (no_client_world (AssertionError "429 Too Many Requests"))) =
    Raise (UnboundLocalError "local variable 'reddit' referenced before assignment") /\
  pauses 10 (trace (Edward.get_reddit
                      (no_client_world (AssertionError "429 Too Many Requests")))) = 1%nat.
Proof.
  destruct (get_reddit_assertion_error_leaves_no_client
              (no_client_world (AssertionError "429 Too Many Requests"))
              (Some "all") (Some 99) "429 Too Many Requests")
    as (_ & Hp & _ & _ & _); [vm_compute; reflexivity ..|].
  split; [vm_compute; reflexivity|exact Hp].
Defined.

(** ** Complete and aborted harvests *)

Lemma for_each_all_ok {A} (f : A -> M unit) l :
  (forall x, In x l -> outcome (f x) = Ok tt) ->
  for_each l f = (concat (map (fun x => trace (f x)) l), Ok tt).
Proof.
  intros Hok.
  destruct (for_each_prefix f l) as (n & _ & Htr & Hall).
  destruct Hall as [-> Ho]; [intros x Hx; exists tt; by apply Hok|].
  rewrite firstn_all in Htr.
  destruct (for_each l f) as [tr r]. simpl in *. by subst.
Qed.

Lemma for_each_abort {A} (f : A -> M unit) before x after exc :
  outcome (for_each before f) = Ok tt ->
  outcome (f x) = Raise exc ->
  for_each (before ++ x :: after) f =
  (trace (for_each before f) ++ trace (f x), Raise exc).
Proof.
  intros Hb Hx. rewrite (for_each_app _ _ _ Hb), for_each_cons, Hx. reflexivity.
Qed.

Lemma concat_filter_map {A B} (P : B -> Prop) `{!forall y, Decision (P y)}
    (f : A -> B) {C} (g : C -> list A) (l : list C) :
  concat (map (fun s => filter P (map f (g s))) l) =
  filter P (map f (concat (map g l))).
Proof.
  induction l as [|s l IH]; [done|].
  simpl. by rewrite map_app, filter_app, IH.
Qed.

Lemma submission_step_outcome_caught w submission :
  (forall exc, outcome (Edward.submission_body w submission) = Raise exc ->
               Edward.handler exc <> None) ->
  outcome (Edward.submission_step w submission) = Ok tt.
Proof.
  intros Hcaught. unfold Edward.submission_step. rewrite try_except_outcome.
  destruct (outcome (Edward.submission_body w submission)) as [[]|exc] eqn:E; [done|].
  destruct (Edward.handler exc) as [m|] eqn:Hh; [|by destruct (Hcaught exc)].
  by destruct (handler_trace _ _ Hh) as (_ & _ & ->).
Qed.

(** X11: when the sink never raises and every exception raised while a
    submission is processed is one a clause catches, the harvest of
    [edward.py] ends normally, visits every comment of every submission it
    could fetch, pausing once for each, and trains on exactly the long-enough
    sequences of those comments, in listing order. *)
Theorem harvest_complete_when_errors_are_caught
    (w : World) (submissions : list Praw.Submission) :
  (forall s, train w s = Ok tt) ->
  (forall submission exc,
      In submission submissions ->
      outcome (Edward.submission_body w submission) = Raise exc ->
      Edward.handler exc <> None) ->
  outcome (Edward.harvest w submissions) = Ok tt /\
  trained (trace (Edward.harvest w submissions)) =
    filter long_enough
           (map sequence_of (concat (map reachable_comments submissions))) /\
  pauses Edward.slp (trace (Edward.harvest w submissions)) =
    length (concat (map reachable_comments submissions)).
Proof.
  intros Hcalm Hcaught. unfold Edward.harvest.
  rewrite (for_each_all_ok (Edward.submission_step w) submissions).
  2:{ intros submission Hin. apply submission_step_outcome_caught.
      intros exc. by apply Hcaught. }
  simpl. split; [done|]. clear Hcaught. split.
  - rewrite trained_concat_map, <- concat_filter_map. f_equal.
    apply map_ext. intros submission.
    destruct (submission_step_spec w submission) as (n & _ & -> & _ & Hn).
    rewrite (Hn Hcalm). by rewrite firstn_all.
  - induction submissions as [|submission l IH]; [done|].
    simpl. rewrite pauses_app, length_app, IH. f_equal.
    destruct (submission_step_spec w submission) as (n & _ & _ & -> & Hn).
    by apply Hn.
Qed.

Lemma harvest_complete_when_errors_are_caught_witness :
  let t1 := thread "t1" [hi_comment; leaf "x"] in
  let t3 := thread "t3" [removed_comment] in
  let w := calm_world [t1; deleted_thread; t3] in
  outcome (Edward.harvest w [t1; deleted_thread; t3]) = Ok tt /\
  trained (trace (Edward.harvest w [t1; deleted_thread; t3])) =
    [["hi"; "hello there"; "aww"; "up"; "ok"]; ["[removed]"; "a"; "b"; "c"; "d"]] /\
  pauses Edward.slp (trace (Edward.harvest w [t1; deleted_thread; t3])) = 3%nat.
Proof.
  intros t1 t3 w.
  apply (harvest_complete_when_errors_are_caught w [t1; deleted_thread; t3]).
  - reflexivity.
  - intros submission exc [<-|[<-|[<-|[]]]]; vm_compute; intros H; discriminate H.
Defined.

(** X12: an exception that no clause catches (anything but the three praw
    classes and [AssertionError]) ends the harvest of [edward.py] at once
    with that exception: what was done so far stays, and the submissions
    that follow are never processed. *)
Theorem harvest_aborts_on_uncaught_exception
    (w : World) (before after : list Praw.Submission)
    (submission : Praw.Submission) (exc : Exn) :
  outcome (Edward.harvest w before) = Ok tt ->
  outcome (Edward.submission_body w submission) = Raise exc ->
  Edward.handler exc = None ->
  Edward.harvest w (before ++ submission :: after) =
    (trace (Edward.harvest w before) ++ trace (Edward.submission_body w submission),
     Raise exc).
Proof.
  intros Hb Hraise Hh. unfold Edward.harvest.
  rewrite (for_each_abort _ _ _ _ exc Hb).
  - unfold Edward.submission_step at 2. rewrite try_except_trace, Hraise, Hh.
    by rewrite app_nil_r.
  - unfold Edward.submission_step. by rewrite try_except_outcome, Hraise, Hh.
Qed.

Lemma harvest_aborts_on_uncaught_exception_witness :
  let w := picky_world (OtherException "KeyboardInterrupt" "") three_threads in
  trained (trace (Edward.harvest w three_threads)) =
    [["hi"; "hello there"; "aww"; "up"; "ok"]; ["boom"; "a"; "b"; "c"; "d"]] /\
  outcome (Edward.harvest w three_threads) =
    Raise (OtherException "KeyboardInterrupt" "").
Proof.
  intros w.
  pose proof (harvest_aborts_on_uncaught_exception w
                [thread "t1" [hi_comment]] [thread "t3" [removed_comment]]
                (thread "t2" [boom_comment; hi_comment])
                (OtherException "KeyboardInterrupt" "")) as E.
  change ([thread "t1" [hi_comment]] ++
          thread "t2" [boom_comment; hi_comment] :: [thread "t3" [removed_comment]])
    with three_threads in E.
  rewrite E by (vm_compute; reflexivity).
  vm_compute. split; reflexivity.
Defined.

(** ** Threads and comments that yield nothing *)

(** X13: the author's link karma is read only to be logged, but when that
    read raises, the [try] body of both scripts ends there: the comments of
    the submission are not even requested, and nothing is trained on. *)
Theorem karma_failure_skips_the_thread
    (w : World) (submission : Praw.Submission) (a : Praw.Redditor) (exc : Exn) :
  Praw.author submission = Some a ->
  Praw.link_karma a = Raise exc ->
  Edward.submission_body w submission =
    (header submission ++
       [Log DEBUG "Author: %s" [AStr (Praw.name a)]; FetchRedditor (Praw.name a)],
     Raise exc) /\
  Bot.submission_body w submission =
    (bot_header submission ++ [FetchRedditor (Praw.name a)], Raise exc) /\
  trained (trace (Edward.submission_step w submission)) = [] /\
  trained (trace (Bot.submission_step w submission)) = [] /\
  ~ In (FetchComments (Praw.id submission)) (trace (Edward.submission_step w submission)) /\
  ~ In (FetchComments (Praw.id submission)) (trace (Bot.submission_step w submission)).
Proof.
  intros Ha Hk.
  assert (Edward.submission_body w submission =
          (header submission ++
             [Log DEBUG "Author: %s" [AStr (Praw.name a)]; FetchRedditor (Praw.name a)],
           Raise exc)) as Ee.
  { unfold Edward.submission_body, header, LOG. by rewrite Ha, Hk. }
  assert (Bot.submission_body w submission =
          (bot_header submission ++ [FetchRedditor (Praw.name a)], Raise exc)) as Eb.
  { unfold Bot.submission_body, Bot.author_link_karma, bot_header, LOG.
    by rewrite Ha, Hk. }
  split; [exact Ee|]. split; [exact Eb|].
  unfold Edward.submission_step, Bot.submission_step, sleep.
  rewrite bind_emit, !try_except_trace, Ee, Eb. unfold header, bot_header.
  rewrite Ha. simpl.
  destruct exc; simpl; try destruct (PyStr.contains "429" msg); simpl;
    repeat split; try done; intros H;
    repeat (destruct H as [H|H]; [discriminate H|]); destruct H.
Qed.

Lemma karma_failure_skips_the_thread_witness :
  let t := suspended_thread (PRAWException "404") in
  trained (trace (Edward.submission_step (calm_world []) t)) = [] /\
  outcome (Edward.submission_step (calm_world []) t) = Ok tt.
Proof.
  intros t.
  destruct (karma_failure_skips_the_thread (calm_world []) t
              (suspended (PRAWException "404")) (PRAWException "404"))
    as (_ & _ & Ht & _); [reflexivity ..|].
  split; [exact Ht|reflexivity].
Defined.

(** X14: a comment with fewer than four direct replies is never trained on
    by [edward.py], whatever the replies say: the sink is not called and the
    comment's turn ends normally. *)
Theorem fewer_than_four_replies_never_trained (w : World) (comment : Praw.Comment) :
  (length (Praw.replies comment) < 4)%nat ->
  trained (trace (Edward.comment_body w comment)) = [] /\
  outcome (Edward.comment_body w comment) = Ok tt.
Proof.
  intros Hlen.
  rewrite comment_body_trained, comment_body_outcome.
  destruct (decide (long_enough (sequence_of comment))) as [Hl|]; [|done].
  exfalso. unfold long_enough, sequence_of, cleaned_replies in Hl. simpl in Hl.
  pose proof (length_filter passes_filter
                (map (fun rep => Edward.clean (Praw.body rep)) (Praw.replies comment)))
    as Hf.
  rewrite length_map in Hf. lia.
Qed.

Lemma fewer_than_four_replies_never_trained_witness :
  trained (trace (Edward.comment_body (calm_world [])
                    (Praw.mkComment "hi" [leaf "a"; leaf "b"; leaf "c"]))) = [].
Proof.
  apply (fewer_than_four_replies_never_trained (calm_world [])
           (Praw.mkComment "hi" [leaf "a"; leaf "b"; leaf "c"])).
  simpl. lia.
Defined.

(** ** [bot.py] trains on everything *)

Lemma bot_comment_body_spec w comment :
  Bot.comment_body w comment =
  ([Log INFO "Training: %s" [AList (Bot.get_sub_comments comment)];
    Train (Bot.get_sub_comments comment)],
   train w (Bot.get_sub_comments comment)).
Proof.
  unfold Bot.comment_body, bot_train, LOG, lift. rewrite !bind_emit.
  by destruct (train w (Bot.get_sub_comments comment)).
Qed.

Lemma bot_comment_loop_calm w (cs : list Praw.Comment) :
  (forall s, train w s = Ok tt) ->
  outcome (for_each cs (Bot.comment_body w)) = Ok tt /\
  trained (trace (for_each cs (Bot.comment_body w))) = map Bot.get_sub_comments cs.
Proof.
  intros Hcalm.
  rewrite (for_each_all_ok (Bot.comment_body w) cs).
  2:{ intros c _. rewrite bot_comment_body_spec. apply Hcalm. }
  split; [done|]. unfold trace at 1. cbn [fst]. rewrite trained_concat_map.
  rewrite (map_ext _ (fun c => [Bot.get_sub_comments c]))
    by (intros c; by rewrite bot_comment_body_spec).
  induction cs as [|c cs IH]; [done|]. simpl. by rewrite IH.
Qed.

(** X15: [bot.py] has no filter and no minimum length.  With a sink that
    does not raise, every comment of a submission it could fetch is trained
    on, in order, as its own text followed by the raw texts of all its
    direct replies; a comment without replies is trained on alone. *)
Theorem bot_trains_every_comment_unfiltered (w : World) (submission : Praw.Submission) :
  (forall s, train w s = Ok tt) ->
  trained (trace (Bot.submission_step w submission)) =
    map (fun comment => Praw.body comment :: map Praw.body (Praw.replies comment))
        (reachable_comments submission).
Proof.
  intros Hcalm.
  unfold Bot.submission_step, sleep. rewrite bind_emit. simpl trace.
  change (trained (Sleep ?d :: ?l)) with (trained l).
  rewrite try_except_trace, trained_app.
  assert (trained (trace (Bot.submission_body w submission)) =
            map Bot.get_sub_comments (reachable_comments submission) /\
          (forall exc, outcome (Bot.submission_body w submission) = Raise exc ->
                       reachable_comments submission = [])) as [-> Hexc].
  { unfold Bot.submission_body, Bot.author_link_karma, reachable_comments, LOG.
    destruct (Praw.author submission) as [a|]; [|split; [done|]; by intros].
    destruct (Praw.link_karma a) as [k|e]; [|split; [done|]; by intros].
    destruct (Praw.comments submission) as [cs|e]; [|split; [done|]; by intros].
    destruct (bot_comment_loop_calm w cs Hcalm) as [Ho Ht].
    destruct (for_each cs (Bot.comment_body w)) as [tr r] eqn:E.
    simpl in Ho, Ht. subst r.
    simpl. rewrite E. simpl. split; [|intros exc H; discriminate H].
    rewrite trained_app, Ht. simpl. by rewrite app_nil_r. }
  destruct (outcome (Bot.submission_body w submission)) as [|exc] eqn:E.
  - simpl. by rewrite app_nil_r.
  - rewrite (Hexc exc eq_refl). simpl.
    destruct exc; simpl; try done. by destruct (PyStr.contains "429" msg).
Qed.

Lemma bot_trains_every_comment_unfiltered_witness :
  trained (trace (Bot.submission_step (calm_world [])
                    (thread "t1" [hi_comment; leaf "x"]))) =
  [["hi"; "hello there"; "[removed]"; ninety_x; "/r/aww"; "^^up"; "ok"]; ["x"]].
Proof.
  apply (bot_trains_every_comment_unfiltered (calm_world [])
           (thread "t1" [hi_comment; leaf "x"])).
  reflexivity.
Defined.

(** X16: [get_sub_comments], the same in both scripts, returns the text of
    the comment followed by the texts of its direct replies in order; the
    sequence of [edward.py] for the same comment has the same head and is
    never longer. *)
Theorem get_sub_comments_shape (comment : Praw.Comment) :
  Bot.get_sub_comments comment =
    Praw.body comment :: map Praw.body (Praw.replies comment) /\
  Edward.get_sub_comments comment = Bot.get_sub_comments comment /\
  length (Bot.get_sub_comments comment) = S (length (Praw.replies comment)) /\
  head (sequence_of comment) = head (Bot.get_sub_comments comment) /\
  (length (sequence_of comment) <= length (Bot.get_sub_comments comment))%nat.
Proof.
  repeat split.
  - unfold Bot.get_sub_comments. simpl. by rewrite length_map.
  - unfold Bot.get_sub_comments, sequence_of, cleaned_replies. simpl.
    pose proof (length_filter passes_filter
                  (map (fun rep => Edward.clean (Praw.body rep)) (Praw.replies comment)))
      as Hf.
    rewrite !length_map in *. lia.
Qed.

(** ** [main] *)

Lemma eqb_ne (t s : string) : t <> s -> String.eqb t s = false.
Proof. apply String.eqb_neq. Qed.

Lemma given_string args key t :
  args !! key = Some (ArgStr t) -> t <> "" -> given args key = true.
Proof.
  intros E H. unfold given. rewrite E. simpl. apply String.eqb_neq in H. by rewrite H.
Qed.

(** X17: when [--training] is absent from the arguments, or is [None] or
    empty, [main] of both scripts reads a variable that was never assigned:
    it raises [UnboundLocalError] before any mode runs, whatever [--bot]
    says. *)
Theorem main_without_training_raises
    (w : World) (modes : Modes) (args : gmap string ArgValue) :
  given args "--training" = false ->
  Edward.main w modes args =
    ([], Raise (UnboundLocalError
                  "local variable 'training' referenced before assignment")) /\
  Bot.main w modes args =
    ([], Raise (UnboundLocalError
                  "local variable 'training' referenced before assignment")).
Proof.
  intros H. unfold Edward.main, Bot.main. rewrite H. split; reflexivity.
Qed.

Lemma main_without_training_raises_witness :
  Edward.main (calm_world []) marked_modes {[ "--bot" := ArgStr "gitter" ]} =
    ([], Raise (UnboundLocalError
                  "local variable 'training' referenced before assignment")).
Proof.
  apply (main_without_training_raises (calm_world []) marked_modes
           {[ "--bot" := ArgStr "gitter" ]}).
  vm_compute. reflexivity.
Defined.

(** X18: with [--training reddit], [main] of [edward.py] runs
    [reddit_training] on subreddit [all] with limit 99.  If [--bot] names
    none of the bots, nothing else happens; if [--bot] is absent, [None] or
    empty, the run is the same but a harvest that ended normally is followed
    by [UnboundLocalError]. *)
Theorem edward_main_reddit_then_bot
    (w : World) (modes : Modes) (args : gmap string ArgValue) :
  args !! "--training" = Some (ArgStr "reddit") ->
  (forall bot,
      args !! "--bot" = Some (ArgStr bot) ->
      ~ In bot [""; "feedback"; "hipchat"; "gitter"; "twitter"; "voice"] ->
      Edward.main w modes args = Edward.reddit_training w (Some "all") (Some 99)) /\
  (given args "--bot" = false ->
   trace (Edward.main w modes args) =
     trace (Edward.reddit_training w (Some "all") (Some 99)) /\
   outcome (Edward.main w modes args) =
     match outcome (Edward.reddit_training w (Some "all") (Some 99)) with
     | Ok _ => Raise (UnboundLocalError
                        "local variable 'bot' referenced before assignment")
     | Raise exc => Raise exc
     end).
Proof.
  intros Ht. unfold Edward.main.
  rewrite (given_string _ _ _ Ht) by done. rewrite Ht. split.
  - intros bot Hb Hnot.
    rewrite (given_string _ _ _ Hb) by (intros ->; apply Hnot; simpl; auto 10).
    rewrite Hb. simpl.
    rewrite !(eqb_ne bot) by (intros ->; apply Hnot; simpl; auto 10).
    destruct (Edward.reddit_training w (Some "all") (Some 99)) as [tr [[]|e]];
      simpl; [by rewrite app_nil_r|done].
  - intros Hb. rewrite Hb. simpl.
    destruct (Edward.reddit_training w (Some "all") (Some 99)) as [tr [[]|e]];
      simpl; [by rewrite app_nil_r|done].
Qed.

Lemma edward_main_reddit_then_bot_witness :
  let w := calm_world [thread "t1" [hi_comment]] in
  Edward.main w marked_modes
     {[ "--training" := ArgStr "reddit"; "--bot" := ArgStr "help" ]} =
    Edward.main_reddit w /\
  outcome (Edward.main w marked_modes {[ "--training" := ArgStr "reddit" ]}) =
    Raise (UnboundLocalError "local variable 'bot' referenced before assignment").
Proof.
  intros w. split.
  - destruct (edward_main_reddit_then_bot w marked_modes
                {[ "--training" := ArgStr "reddit"; "--bot" := ArgStr "help" ]})
      as [H _]; [vm_compute; reflexivity|].
    apply (H "help"); [vm_compute; reflexivity|].
    simpl. intros [H'|[H'|[H'|[H'|[H'|[H'|[]]]]]]]; discriminate H'.
  - destruct (edward_main_reddit_then_bot w marked_modes
                {[ "--training" := ArgStr "reddit" ]})
      as [_ H]; [vm_compute; reflexivity|].
    destruct H as [_ ->]; vm_compute; reflexivity.
Defined.

(** X19: a training mode that is none of the known names makes [main] of
    [bot.py] log one error record, [Unknown training mode], and end
    normally; [main] of [edward.py], given also a bot name it does not know,
    does nothing at all and ends normally. *)
Theorem main_unknown_mode
    (w : World) (modes : Modes) (args : gmap string ArgValue) (training : string) :
  args !! "--training" = Some (ArgStr training) ->
  ~ In training [""; "english"; "word_list"; "manual"; "feedback"; "ubuntu";
                 "reddit"; "twitter"; "hipchat"; "gitter"] ->
  Bot.main w modes args = ([Log ERROR "Unknown training mode" []], Ok tt) /\
  (forall bot,
      args !! "--bot" = Some (ArgStr bot) ->
      ~ In bot [""; "feedback"; "hipchat"; "gitter"; "twitter"; "voice"] ->
      Edward.main w modes args = ([], Ok tt)).
Proof.
  intros Ht Hnot. unfold Edward.main, Bot.main.
  rewrite (given_string _ _ _ Ht) by (intros ->; apply Hnot; simpl; auto 20).
  rewrite Ht. simpl.
  rewrite !(eqb_ne training) by (intros ->; apply Hnot; simpl; auto 20).
  split; [reflexivity|].
  intros bot Hb Hnotb.
  rewrite (given_string _ _ _ Hb) by (intros ->; apply Hnotb; simpl; auto 10).
  rewrite Hb. simpl.
  rewrite !(eqb_ne bot) by (intros ->; apply Hnotb; simpl; auto 10).
  reflexivity.
Qed.

Lemma main_unknown_mode_witness :
  Bot.main (calm_world []) marked_modes {[ "--training" := ArgStr "redit" ]} =
    ([Log ERROR "Unknown training mode" []], Ok tt).
Proof.
  destruct (main_unknown_mode (calm_world []) marked_modes
              {[ "--training" := ArgStr "redit" ]} "redit") as [H _];
    [vm_compute; reflexivity| |exact H].
  simpl. intros H. repeat (destruct H as [H|H]; [discriminate H|]). destruct H.
Defined.

(** ** Interactive modes of [bot.py] *)



Lemma effects_app out1 out2 : effects (out1 ++ out2) = effects out1 ++ effects out2.
Proof. apply omap_app. Qed.

Lemma manual_loop_trained w respond n response stdin :
  trained (effects (fst (Bot.manual_loop w respond n response stdin))) =
  match stdin with
  | [] => []
  | comment :: stdin' =>
      match respond n comment with
      | Raise _ => []
      | Ok response' =>
          [response +:+ ": "; comment] ::
          match train w [response +:+ ": "; comment] with
          | Raise _ => []
          | Ok _ =>
              trained (effects (fst (Bot.manual_loop w respond (S n) response' stdin')))
          end
      end
  end.
Proof.
  destruct stdin as [|comment stdin']; [done|]. simpl.
  destruct (respond n comment) as [response'|exc]; [|done].
  destruct (train w _) as [[]|exc]; [|done].
  by destruct (Bot.manual_loop w respond (S n) response' stdin').
Qed.

Lemma manual_loop_chain w respond stdin :
  forall n response i s,
    trained (effects (fst (Bot.manual_loop w respond n response stdin))) !! i = Some s ->
    exists comment,
      stdin !! i = Some comment /\
      match i with
      | O => s = [response +:+ ": "; comment]
      | S j => exists previous answer,
                 stdin !! j = Some previous /\
                 respond (n + j)%nat previous = Ok answer /\
                 s = [answer +:+ ": "; comment]
      end.
Proof.
  induction stdin as [|c0 stdin IH]; intros n response i s;
    rewrite manual_loop_trained; [done|].
  destruct (respond n c0) as [r0|exc] eqn:Er; [|done].
  destruct i as [|j].
  - intros [= <-]. by exists c0.
  - simpl. destruct (train w _) as [[]|exc]; [|done].
    intros (comment & Hc & Hs)%IH. exists comment. split; [done|].
    destruct j as [|k].
    + exists c0, r0. by rewrite Nat.add_0_r.
    + destruct Hs as (previous & answer & Hp & Ha & ->).
      exists previous, answer. by rewrite Nat.add_succ_r.
Qed.

(** X21: [manual_training] trains on pairs: the prompt it showed and the
    line the user typed.  The first prompt is [How can I help you?: ]; every
    later prompt is the bot's answer to the line before, with [: ] appended,
    so that suffix is part of what the bot learns. *)
Theorem manual_training_trains_on_prompt_and_line
    (w : World) (respond : nat -> string -> result string)
    (stdin : list string) (i : nat) (s : list string) :
  trained (effects (fst (Bot.manual_training w respond stdin))) !! i = Some s ->
  exists comment,
    stdin !! i = Some comment /\
    match i with
    | O => s = ["How can I help you?: "; comment]
    | S j => exists previous answer,
               stdin !! j = Some previous /\
               respond j previous = Ok answer /\
               s = [answer +:+ ": "; comment]
    end.
Proof.
  unfold Bot.manual_training.
  destruct (Bot.manual_loop w respond 0 "How can I help you?" stdin) as [out r] eqn:E.
  change (trained (effects (fst (Effect (NewChatBot "Useless Bot") :: out, r))))
    with (trained (effects (fst (out, r)))).
  rewrite <- E. apply manual_loop_chain.
Qed.

Lemma manual_training_trains_on_prompt_and_line_witness :
  exists comment,
    ["hello"; "bye"] !! 1%nat = Some comment /\
    exists previous answer,
      ["hello"; "bye"] !! 0%nat = Some previous /\
      Ok ("re " +:+ previous) = Ok answer /\
      ["re hello: "; "bye"] = [answer +:+ ": "; comment].
Proof.
  apply (manual_training_trains_on_prompt_and_line (calm_world [])
           (fun _ c => Ok ("re " +:+ c)) ["hello"; "bye"] 1 ["re hello: "; "bye"]).
  reflexivity.
Defined.

Lemma manual_loop_end w respond stdin :
  forall n response,
    (forall exc, snd (Bot.manual_loop w respond n response stdin) = Raise exc ->
                 interrupts exc = false) /\
    ((forall k c, exists r, respond k c = Ok r) ->
     (forall s, train w s = Ok tt) ->
     snd (Bot.manual_loop w respond n response stdin) = Ok tt /\
     length (trained (effects (fst (Bot.manual_loop w respond n response stdin)))) =
       length stdin).
Proof.
  induction stdin as [|c0 stdin IH]; intros n response.
  - split; [intros exc H; discriminate H|]. by intros _ _.
  - split.
    + intros exc. simpl.
      destruct (respond n c0) as [r0|e] eqn:Er.
      * destruct (train w _) as [[]|e] eqn:Et.
        -- destruct (IH (S n) r0) as [Hi _].
           destruct (Bot.manual_loop w respond (S n) r0 stdin) as [out r].
           simpl in *. exact (Hi exc).
        -- simpl. destruct (interrupts e) eqn:Hi; [done|]. by intros [= <-].
      * simpl. destruct (interrupts e) eqn:Hi; [done|]. by intros [= <-].
    + intros Hr Ht. rewrite manual_loop_trained. simpl.
      destruct (Hr n c0) as [r0 ->]. rewrite !Ht.
      destruct (IH (S n) r0) as [_ Hc]. destruct (Hc Hr Ht) as [Ho Hl].
      destruct (Bot.manual_loop w respond (S n) r0 stdin) as [out r].
      simpl in *. by rewrite Hl.
Qed.

(** X22: [manual_training] never lets a [KeyboardInterrupt], [EOFError] or
    [SystemExit] out: those end the loop and the function returns.  When
    neither the bot nor the sink raises, it returns at the end of the input
    having trained once for every line read. *)
Theorem manual_training_returns_at_end_of_input
    (w : World) (respond : nat -> string -> result string) (stdin : list string) :
  (forall exc, snd (Bot.manual_training w respond stdin) = Raise exc ->
               interrupts exc = false) /\
  ((forall k c, exists r, respond k c = Ok r) ->
   (forall s, train w s = Ok tt) ->
   snd (Bot.manual_training w respond stdin) = Ok tt /\
   length (trained (effects (fst (Bot.manual_training w respond stdin)))) =
     length stdin).
Proof.
  destruct (manual_loop_end w respond stdin 0%nat "How can I help you?") as [Hi Hc].
  unfold Bot.manual_training.
  destruct (Bot.manual_loop w respond 0 "How can I help you?" stdin) as [out r].
  split; [exact Hi|exact Hc].
Qed.

Example manual_training_interrupted :
  Bot.manual_training (calm_world [])
    (fun n c => if (n =? 1)%nat then Raise (OtherException "KeyboardInterrupt" "")
                else Ok ("re " +:+ c))
    ["hello"; "bye"; "again"] =
  ([Effect (NewChatBot "Useless Bot"); Stdout "How can I help you?: ";
    Effect (Log INFO "Comment: %s" [AStr "hello"]);
    Effect (Log INFO "Response: %s" [AStr "re hello"]);
    Effect (Log INFO "Training bot: %s" [AList ["How can I help you?: "; "hello"]]);
    Effect (Train ["How can I help you?: "; "hello"]);
    Stdout "re hello: "],
   Ok tt).
Proof. vm_compute. reflexivity. Qed.
